(** * ResuMate: the resume parser, the analysis units and the orchestrator

    A shallow embedding of [resume_agent.py] and of the request handler of
    [gradio_resume_app.py], and the properties of the design document that
    can be stated over it.

    Python text is a list of Unicode code points.  A Python dictionary is an
    association list kept in insertion order.  The text-generation provider,
    the clock and the credential configuration are the environment of the
    program: they are variables of the sections that use them.  What the
    program prints on the console is left out. *)

From Stdlib Require Import List NArith ZArith Bool Ascii String Lia.
From Stdlib Require Import DecimalString.
Import ListNotations.

Set Implicit Arguments.
Set Warnings "-register-all".
Open Scope N_scope.
Open Scope list_scope.

(** ** Python text *)

Module Py.

Definition char := N.
Definition str := list char.

(** A literal of the source, written in ASCII. *)
Definition py (s : string) : str := map N_of_ascii (list_ascii_of_string s).

Definition chr (a : ascii) : char := N_of_ascii a.

Fixpoint str_eqb (a b : str) : bool :=
  match a, b with
  | [], [] => true
  | x :: a', y :: b' => N.eqb x y && str_eqb a' b'
  | _, _ => false
  end.

(** [str.isspace] on one code point: the ASCII table of CPython and the
    code points of the Unicode White_Space property above it. *)
Definition isspace (c : char) : bool :=
  ((0x09 <=? c) && (c <=? 0x0D)) || ((0x1C <=? c) && (c <=? 0x20))
  || (c =? 0x85) || (c =? 0xA0) || (c =? 0x1680)
  || ((0x2000 <=? c) && (c <=? 0x200A))
  || (c =? 0x2028) || (c =? 0x2029) || (c =? 0x202F) || (c =? 0x205F)
  || (c =? 0x3000).

Fixpoint lstrip (s : str) : str :=
  match s with
  | c :: s' => if isspace c then lstrip s' else s
  | [] => []
  end.

Definition rstrip (s : str) : str := rev (lstrip (rev s)).

(** [s.strip()] *)
Definition strip (s : str) : str := rstrip (lstrip s).

(** [s.split(sep)] for a separator of one character, the only kind the
    program uses: the result is never empty. *)
Fixpoint split (sep : char) (s : str) : list str :=
  match s with
  | [] => [[]]
  | c :: s' =>
      if c =? sep then [] :: split sep s'
      else match split sep s' with
           | w :: ws => (c :: w) :: ws
           | [] => [[c]]
           end
  end.

(** [s.split()]: the maximal runs of characters that are not white space. *)
Fixpoint split_ws (s : str) : list str :=
  match s with
  | [] => []
  | c :: s' =>
      if isspace c then split_ws s'
      else match s' with
           | [] => [[c]]
           | d :: _ =>
               if isspace d then [c] :: split_ws s'
               else match split_ws s' with
                    | w :: ws => (c :: w) :: ws
                    | [] => [[c]]
                    end
           end
  end.

(** [s.lower()].  The program compares the lowered line with ASCII
    keywords only, so the lowercase forms it can observe are those that
    begin with an ASCII letter: the letters A-Z, U+212A KELVIN SIGN (k)
    and U+0130 (i followed by U+0307).  Any other code point has a
    lowercase form outside ASCII, or none, and is kept as it is. *)
Definition lower_char (c : char) : str :=
  if (0x41 <=? c) && (c <=? 0x5A) then [c + 32]
  else if c =? 0x130 then [0x69; 0x307]
  else if c =? 0x212A then [0x6B]
  else [c].

Definition lower (s : str) : str := flat_map lower_char s.

Fixpoint startswith (p s : str) : bool :=
  match p, s with
  | [], _ => true
  | x :: p', y :: s' => (x =? y) && startswith p' s'
  | _ :: _, [] => false
  end.

(** [re.match(r'(a|b|c)', s)] for literal alternatives: a match object
    (truthy) exactly when [s] begins with one of them. *)
Definition re_match (alternatives : list str) (s : str) : bool :=
  existsb (fun p => startswith p s) alternatives.

(** Truth value of a string, and of an optional string. *)
Definition truthy (s : str) : bool :=
  match s with [] => false | _ :: _ => true end.

Definition truthy_opt (s : option str) : bool :=
  match s with None => false | Some s => truthy s end.

End Py.

Import Py.
Arguments py s%_string.
Arguments chr a%_char.

Definition NL : char := 10.

(** ** Python values *)

Inductive pyval :=
| PNone
| PBool (b : bool)
| PInt (z : Z)
| PFloat (literal : str)
| PStr (s : str)
| PList (l : list pyval)
| PDict (d : list (str * pyval)).

Definition dict := list (str * pyval).

(** [d[k] = v]: a key already present keeps its place. *)
Fixpoint dict_set (k : str) (v : pyval) (d : dict) : dict :=
  match d with
  | [] => [(k, v)]
  | (k', v') :: d' =>
      if str_eqb k k' then (k, v) :: d' else (k', v') :: dict_set k v d'
  end.

Fixpoint dict_get (k : str) (d : dict) : option pyval :=
  match d with
  | [] => None
  | (k', v) :: d' => if str_eqb k k' then Some v else dict_get k d'
  end.

Definition keys (d : dict) : list str := map fst d.

(** ** Decoding JSON text

    [json.loads] of the Python standard library, as the scanner of
    [json.decoder] and [json.scanner] reads a text: white space is space,
    tab, line feed and carriage return; strings are read in strict mode;
    [NaN], [Infinity] and [-Infinity] are accepted; a repeated object key
    keeps the last value.  An integer literal is decoded to its value.  A
    literal with a fraction or an exponent is a floating-point number,
    which is kept as its literal.  The limits of the interpreter on the
    depth of nesting and on the number of digits of an integer are not
    modelled. *)

Module Json.

Definition DQUOTE : char := 0x22.
Definition BACKSLASH : char := 0x5C.

Definition is_ws (c : char) : bool :=
  (c =? 0x20) || (c =? 0x09) || (c =? 0x0A) || (c =? 0x0D).

Fixpoint skip_ws (s : str) : str :=
  match s with
  | c :: s' => if is_ws c then skip_ws s' else s
  | [] => []
  end.

Fixpoint strip_prefix (p s : str) : option str :=
  match p, s with
  | [], _ => Some s
  | x :: p', y :: s' => if x =? y then strip_prefix p' s' else None
  | _ :: _, [] => None
  end.

Definition is_digit (c : char) : bool := (0x30 <=? c) && (c <=? 0x39).

Definition hexval (c : char) : option N :=
  if is_digit c then Some (c - 0x30)
  else if (0x41 <=? c) && (c <=? 0x46) then Some (c - 0x41 + 10)
  else if (0x61 <=? c) && (c <=? 0x66) then Some (c - 0x61 + 10)
  else None.

(** The four hexadecimal digits of a [\uXXXX] escape. *)
Definition hex4 (a b c d : char) : option N :=
  match hexval a, hexval b, hexval c, hexval d with
  | Some x, Some y, Some z, Some w => Some (((x * 16 + y) * 16 + z) * 16 + w)
  | _, _, _, _ => None
  end.

Definition escape (e : char) : option char :=
  if e =? DQUOTE then Some DQUOTE
  else if e =? BACKSLASH then Some BACKSLASH
  else if e =? chr "/" then Some (chr "/")
  else if e =? chr "b" then Some 0x08
  else if e =? chr "f" then Some 0x0C
  else if e =? chr "n" then Some 0x0A
  else if e =? chr "r" then Some 0x0D
  else if e =? chr "t" then Some 0x09
  else None.

Definition high_surrogate (u : N) : bool := (0xD800 <=? u) && (u <=? 0xDBFF).
Definition low_surrogate (u : N) : bool := (0xDC00 <=? u) && (u <=? 0xDFFF).

Definition surrogate_pair (hi lo : N) : N :=
  0x10000 + N.lor (N.shiftl (hi - 0xD800) 10) (lo - 0xDC00).

(** [scanstring]: [s] begins just after the opening quote; [acc] holds the
    characters read so far, last first.  The result is the string and the
    text after the closing quote. *)
Fixpoint scanstring (s : str) (acc : str) : option (str * str) :=
  match s with
  | [] => None
  | c :: s1 =>
      if c =? DQUOTE then Some (rev acc, s1)
      else if c =? BACKSLASH then
        match s1 with
        | [] => None
        | e :: s2 =>
            if e =? chr "u" then
              match s2 with
              | a :: b :: c4 :: d :: s6 =>
                  match hex4 a b c4 d with
                  | None => None
                  | Some uni =>
                      if high_surrogate uni then
                        match s6 with
                        | bs :: u :: a' :: b' :: c' :: d' :: s12 =>
                            if (bs =? BACKSLASH) && (u =? chr "u") then
                              match hex4 a' b' c' d' with
                              | None => None
                              | Some uni2 =>
                                  if low_surrogate uni2
                                  then scanstring s12
                                         (surrogate_pair uni uni2 :: acc)
                                  else scanstring s6 (uni :: acc)
                              end
                            else scanstring s6 (uni :: acc)
                        | _ => scanstring s6 (uni :: acc)
                        end
                      else scanstring s6 (uni :: acc)
                  end
              | _ => None
              end
            else
              match escape e with
              | Some x => scanstring s2 (x :: acc)
              | None => None
              end
        end
      else if c <=? 0x1F then None
      else scanstring s1 (c :: acc)
  end.

Fixpoint span_digits (s : str) : str * str :=
  match s with
  | c :: s' =>
      if is_digit c
      then let (ds, rest) := span_digits s' in (c :: ds, rest)
      else ([], s)
  | [] => ([], [])
  end.

Definition digits_value (ds : str) : Z :=
  fold_left (fun v c => (v * 10 + Z.of_N (c - 0x30))%Z) ds 0%Z.

(** The integer part of a number: an optional sign is read by
    [match_number]; then a single 0, or a digit from 1 to 9 followed by
    any digits. *)
Definition int_part (s : str) : option (str * str) :=
  match s with
  | c :: s' =>
      if c =? chr "0" then Some ([c], s')
      else if is_digit c
           then let (ds, rest) := span_digits s' in Some (c :: ds, rest)
           else None
  | [] => None
  end.

(** The optional fraction: a point and at least one digit. *)
Definition frac_part (s : str) : str * str :=
  match s with
  | c :: s' =>
      if c =? chr "." then
        match span_digits s' with
        | ([], _) => ([], s)
        | (ds, rest) => (c :: ds, rest)
        end
      else ([], s)
  | [] => ([], s)
  end.

(** The optional exponent: e or E, an optional sign, at least one digit. *)
Definition exp_part (s : str) : str * str :=
  match s with
  | c :: s' =>
      if (c =? chr "e") || (c =? chr "E") then
        let (sign, s'') :=
          match s' with
          | g :: t => if (g =? chr "-") || (g =? chr "+")
                      then ([g], t) else ([], s')
          | [] => ([], s')
          end in
        match span_digits s'' with
        | ([], _) => ([], s)
        | (ds, rest) => (c :: sign ++ ds, rest)
        end
      else ([], s)
  | [] => ([], s)
  end.

Definition match_number (s : str) : option (pyval * str) :=
  let (minus, s1) :=
    match s with
    | c :: s' => if c =? chr "-" then ([c], s') else ([], s)
    | [] => ([], s)
    end in
  match int_part s1 with
  | None => None
  | Some (integer, s2) =>
      let (frac, s3) := frac_part s2 in
      let (exp, s4) := exp_part s3 in
      match frac, exp with
      | [], [] =>
          let v := digits_value integer in
          Some (PInt (match minus with [] => v | _ => - v end)%Z, s4)
      | _, _ => Some (PFloat (minus ++ integer ++ frac ++ exp), s4)
      end
  end.

Definition literal (name : str) (v : pyval) (s : str) : option (pyval * str) :=
  match strip_prefix name s with
  | Some rest => Some (v, rest)
  | None => None
  end.

(** The cases of [scan_once] that read no nested value: [null], [true],
    [false], a number, [NaN], [Infinity], [-Infinity], tried in the order
    of the scanner. *)
Definition scan_atom (s : str) : option (pyval * str) :=
  match literal (py "null") PNone s with
  | Some r => Some r
  | None =>
  match literal (py "true") (PBool true) s with
  | Some r => Some r
  | None =>
  match literal (py "false") (PBool false) s with
  | Some r => Some r
  | None =>
  match match_number s with
  | Some r => Some r
  | None =>
  match literal (py "NaN") (PFloat (py "NaN")) s with
  | Some r => Some r
  | None =>
  match literal (py "Infinity") (PFloat (py "Infinity")) s with
  | Some r => Some r
  | None => literal (py "-Infinity") (PFloat (py "-Infinity")) s
  end end end end end end.

(** What a scan gives: a value and the text after it, a decoding error,
    or no answer because the recursion bound was reached. *)
Inductive scanned :=
| Scanned (v : pyval) (rest : str)
| Invalid
| Exhausted.

(** [scan_once], with [JSONObject] ([members]) and [JSONArray]
    ([elements]).  [members] begins just after the opening quote of a
    key; [elements] begins at a value and holds the values read so far,
    last first. *)
Fixpoint scan_once (fuel : nat) (s : str) : scanned :=
  match fuel with
  | O => Exhausted
  | S fuel' =>
      match s with
      | [] => Invalid
      | c :: s1 =>
          if c =? DQUOTE then
            match scanstring s1 [] with
            | Some (x, rest) => Scanned (PStr x) rest
            | None => Invalid
            end
          else if c =? chr "{" then
            match skip_ws s1 with
            | d :: s2 =>
                if d =? chr "}" then Scanned (PDict []) s2
                else if d =? DQUOTE then members fuel' s2 []
                else Invalid
            | [] => Invalid
            end
          else if c =? chr "[" then
            match skip_ws s1 with
            | d :: s2 =>
                if d =? chr "]" then Scanned (PList []) s2
                else elements fuel' (d :: s2) []
            | [] => Invalid
            end
          else
            match scan_atom s with
            | Some (v, rest) => Scanned v rest
            | None => Invalid
            end
      end
  end

with members (fuel : nat) (s : str) (acc : dict) : scanned :=
  match fuel with
  | O => Exhausted
  | S fuel' =>
      match scanstring s [] with
      | None => Invalid
      | Some (key, s1) =>
          match skip_ws s1 with
          | c :: s2 =>
              if c =? chr ":" then
                match scan_once fuel' (skip_ws s2) with
                | Scanned v s3 =>
                    let acc' := dict_set key v acc in
                    match skip_ws s3 with
                    | d :: s4 =>
                        if d =? chr "}" then Scanned (PDict acc') s4
                        else if d =? chr "," then
                          match skip_ws s4 with
                          | q :: s5 =>
                              if q =? DQUOTE then members fuel' s5 acc'
                              else Invalid
                          | [] => Invalid
                          end
                        else Invalid
                    | [] => Invalid
                    end
                | Invalid => Invalid
                | Exhausted => Exhausted
                end
              else Invalid
          | [] => Invalid
          end
      end
  end

with elements (fuel : nat) (s : str) (acc : list pyval) : scanned :=
  match fuel with
  | O => Exhausted
  | S fuel' =>
      match scan_once fuel' s with
      | Scanned v s1 =>
          match skip_ws s1 with
          | d :: s2 =>
              if d =? chr "]" then Scanned (PList (rev (v :: acc))) s2
              else if d =? chr "," then elements fuel' (skip_ws s2) (v :: acc)
              else Invalid
          | [] => Invalid
          end
      | Invalid => Invalid
      | Exhausted => Exhausted
      end
  end.

(** A bound on the recursion that no text reaches (lemma
    [scan_once_answers] below). *)
Definition depth_bound (s : str) : nat := (2 * List.length s + 2)%nat.

(** [json.loads(s)]: [None] stands for [JSONDecodeError]. *)
Definition json_loads (s : str) : option pyval :=
  if startswith [0xFEFF] s then None
  else
    match scan_once (depth_bound s) (skip_ws s) with
    | Scanned v rest =>
        match skip_ws rest with
        | [] => Some v
        | _ :: _ => None
        end
    | Invalid => None
    | Exhausted => None
    end.

End Json.

Import Json.

(** ** The data model *)

Record ResumeData := {
  personal_info : dict;
  summary : str;
  experiences : list pyval;
  skills : list str;
  education : list pyval;
  raw_text : str
}.

Record JobDescription := {
  title : str;
  company : str;
  description : str;
  requirements : list str;
  keywords : list str
}.

(** [resume_data.__dict__] *)
Definition ResumeData_dict (r : ResumeData) : dict :=
  [ (py "personal_info", PDict (personal_info r));
    (py "summary", PStr (summary r));
    (py "experiences", PList (experiences r));
    (py "skills", PList (map PStr (skills r)));
    (py "education", PList (education r));
    (py "raw_text", PStr (raw_text r)) ].

(** ** The resume parser *)

Module Parser.

Inductive section := Summary | Experience | Skills | Education.

(** The local variables the loop of [parse_resume] updates. *)
Record scan := {
  current_section : option section;
  summary_acc : str;
  skills_acc : list str
}.

Definition start : scan :=
  {| current_section := None; summary_acc := []; skills_acc := [] |}.

Definition enter (s : section) (st : scan) : scan :=
  {| current_section := Some s;
     summary_acc := summary_acc st;
     skills_acc := skills_acc st |}.

Definition summary_header (line : str) : bool :=
  re_match [py "summary"; py "profile"; py "objective"] (lower line).
Definition experience_header (line : str) : bool :=
  re_match [py "experience"; py "work"; py "employment"] (lower line).
Definition skills_header (line : str) : bool :=
  re_match [py "skills"; py "technical"] (lower line).
Definition education_header (line : str) : bool :=
  re_match [py "education"; py "academic"] (lower line).

Definition is_header (line : str) : bool :=
  summary_header line || experience_header line
  || skills_header line || education_header line.

(** The comma-separated, trimmed pieces of a skills line. *)
Definition pieces (line : str) : list str :=
  map strip (split (chr ",") line).

(** One iteration of [for line in lines]. *)
Definition scan_line (st : scan) (raw_line : str) : scan :=
  let line := strip raw_line in
  if summary_header line then enter Summary st
  else if experience_header line then enter Experience st
  else if skills_header line then enter Skills st
  else if education_header line then enter Education st
  else if truthy line then
    match current_section st with
    | Some Summary =>
        {| current_section := current_section st;
           summary_acc := summary_acc st ++ line ++ py " ";
           skills_acc := skills_acc st |}
    | Some Skills =>
        {| current_section := current_section st;
           summary_acc := summary_acc st;
           skills_acc := skills_acc st ++ pieces line |}
    | _ => st
    end
  else st.

Definition scan_lines (lines : list str) : scan :=
  fold_left scan_line lines start.

Definition parse_resume (resume_text : str) : ResumeData :=
  let lines := split NL resume_text in
  let st := scan_lines lines in
  {| personal_info :=
       [ (py "name", PStr (py "John Doe"));
         (py "email", PStr (py "john@email.com")) ];
     summary := strip (summary_acc st);
     experiences := [];
     skills := skills_acc st;
     education := [];
     raw_text := resume_text |}.

End Parser.

Import Parser.

(** ** The text-generation client and the analysis units *)

(** The prompt of a unit is an f-string: the fixed text of the unit with
    values of the data model interpolated in it.  A prompt is represented by
    its unit and the interpolated values, in the order of the template; the
    text sent to the provider is a function of them. *)
Inductive prompt :=
| SummaryPrompt (info : dict) (exps : list pyval) (skls : list str)
                (edu : list pyval) (job : option (str * str * list str))
| ExperiencePrompt (exps : list pyval) (ttl cmp dsc : str) (reqs : list str)
| KeywordPrompt (summ : str) (skls : list str) (exps : list pyval)
                (dsc : str) (reqs : list str)
| DesignPrompt (industry : str) (n_info n_exps n_skills n_edu : nat)
| EditingPrompt (text : str).

(** A Python exception, with what [str(e)] gives. *)
Record exception := { exc_type : str; exc_str : str }.

Definition IndexError : exception :=
  {| exc_type := py "IndexError"; exc_str := py "list index out of range" |}.

(** What a call to the outside gives: a text, or an exception. *)
Inductive outcome :=
| Returns (text : str)
| Raises (e : exception).

(** The state of the process: the credential [genai.configure] has set, and
    the prompts sent to the provider so far. *)
Record world := { credential : str; calls : list prompt }.

(** [genai.configure(api_key="YOUR_GEMINI_API_KEY")] at import time. *)
Definition imported : world :=
  {| credential := py "YOUR_GEMINI_API_KEY"; calls := [] |}.

(** A computation returns or raises, and changes the state. *)
Inductive result (A : Type) :=
| Ok (a : A)
| Raise (e : exception).
Arguments Raise {A} e.

Definition M (A : Type) := world -> result A * world.

Definition ret {A} (a : A) : M A := fun w => (Ok a, w).
Definition raise {A} (e : exception) : M A := fun w => (Raise e, w).
Definition bind {A B} (c : M A) (k : A -> M B) : M B :=
  fun w => match c w with
           | (Ok a, w') => k a w'
           | (Raise e, w') => (Raise e, w')
           end.

Notation "x <- c ;; k" := (bind c (fun x => k))
  (at level 61, c at next level, right associativity).

(** The error objects of the four units that decode JSON. *)
Definition error_object (message : str) : pyval :=
  PDict [(py "error", PStr message)].

Definition experience_error := py "Failed to parse experience matching results".
Definition keyword_error := py "Failed to parse keyword optimization results".
Definition design_error := py "Failed to parse design suggestions".
Definition editing_error := py "Failed to parse editing suggestions".

Definition error_prefix : str := py "Error generating response: ".

Section Agents.

(** [self.model.generate_content(prompt)] and [response.text]: what the
    provider answers to a prompt, given the credential in force and the
    number of calls made before. *)
Variable generate_content : str -> nat -> prompt -> outcome.

(** [datetime.now().isoformat()] *)
Variable now : str.

(** [Agent.generate_response] *)
Definition generate_response (p : prompt) : M str :=
  fun w =>
    let w' := {| credential := credential w; calls := calls w ++ [p] |} in
    match generate_content (credential w) (List.length (calls w)) p with
    | Returns text => (Ok text, w')
    | Raises e => (Ok (error_prefix ++ exc_str e), w')
    end.

Definition summary_prompt (resume_data : ResumeData)
    (job_desc : option JobDescription) : prompt :=
  SummaryPrompt (personal_info resume_data) (experiences resume_data)
    (skills resume_data) (education resume_data)
    (match job_desc with
     | Some j => Some (title j, company j, requirements j)
     | None => None
     end).

(** [SummaryAgent.execute] *)
Definition SummaryAgent_execute (resume_data : ResumeData)
    (job_desc : option JobDescription) : M str :=
  generate_response (summary_prompt resume_data job_desc).

Definition experience_prompt (resume_data : ResumeData)
    (job_desc : JobDescription) : prompt :=
  ExperiencePrompt (experiences resume_data) (title job_desc)
    (company job_desc) (description job_desc) (requirements job_desc).

(** [ExperienceMatchingAgent.execute] *)
Definition ExperienceMatchingAgent_execute (resume_data : ResumeData)
    (job_desc : JobDescription) : M pyval :=
  response <- generate_response (experience_prompt resume_data job_desc) ;;
  match json_loads response with
  | Some v => ret v
  | None => ret (error_object experience_error)
  end.

Definition keyword_prompt (resume_data : ResumeData)
    (job_desc : JobDescription) : prompt :=
  KeywordPrompt (summary resume_data) (skills resume_data)
    (experiences resume_data) (description job_desc) (requirements job_desc).

(** [KeywordOptimizationAgent.execute] *)
Definition KeywordOptimizationAgent_execute (resume_data : ResumeData)
    (job_desc : JobDescription) : M pyval :=
  response <- generate_response (keyword_prompt resume_data job_desc) ;;
  match json_loads response with
  | Some v => ret v
  | None => ret (error_object keyword_error)
  end.

(** [job_desc.title.split()[0] if job_desc else "General"] *)
Definition design_industry (job_desc : option JobDescription) : M str :=
  match job_desc with
  | Some j =>
      match split_ws (title j) with
      | first :: _ => ret first
      | [] => raise IndexError
      end
  | None => ret (py "General")
  end.

Definition design_prompt (industry : str) (resume_data : ResumeData) : prompt :=
  DesignPrompt industry
    (List.length (personal_info resume_data))
    (List.length (experiences resume_data))
    (List.length (skills resume_data))
    (List.length (education resume_data)).

(** [DesignAgent.execute] *)
Definition DesignAgent_execute (resume_data : ResumeData)
    (job_desc : option JobDescription) : M pyval :=
  industry <- design_industry job_desc ;;
  response <- generate_response (design_prompt industry resume_data) ;;
  match json_loads response with
  | Some v => ret v
  | None => ret (error_object design_error)
  end.

(** [EditingAgent.execute] *)
Definition EditingAgent_execute (text : str) : M pyval :=
  response <- generate_response (EditingPrompt text) ;;
  match json_loads response with
  | Some v => ret v
  | None => ret (error_object editing_error)
  end.

(** The [JobDescription] that [optimize_resume] builds from the text of a
    job posting. *)
Definition target_job (job_description : str) : JobDescription :=
  {| title := py "Target Position";
     company := py "Target Company";
     description := job_description;
     requirements :=
       filter truthy (map strip (split (chr ".") job_description));
     keywords := [] |}.

(** [ResumeAgent.optimize_resume] *)
Definition optimize_resume (resume_text : str)
    (job_description : option str) : M dict :=
  let resume_data := parse_resume resume_text in
  let job_desc :=
    match job_description with
    | Some text => if truthy text then Some (target_job text) else None
    | None => None
    end in
  let results :=
    [ (py "timestamp", PStr now);
      (py "original_resume", PDict (ResumeData_dict resume_data)) ] in
  new_summary <- SummaryAgent_execute resume_data job_desc ;;
  let results := dict_set (py "new_summary") (PStr new_summary) results in
  results <-
    match job_desc with
    | Some j =>
        matching <- ExperienceMatchingAgent_execute resume_data j ;;
        let results := dict_set (py "experience_matching") matching results in
        optimization <- KeywordOptimizationAgent_execute resume_data j ;;
        ret (dict_set (py "keyword_optimization") optimization results)
    | None => ret results
    end ;;
  design <- DesignAgent_execute resume_data job_desc ;;
  let results := dict_set (py "design_suggestions") design results in
  editing <- EditingAgent_execute resume_text ;;
  ret (dict_set (py "editing_suggestions") editing results).

End Agents.

(** [get_sample_resume()] *)
Definition get_sample_resume : str := py "
    John Doe
    Software Engineer
    john.doe@email.com
    (555) 123-4567
    
    SUMMARY
    Experienced software developer with 5 years in web development and system design.
    
    EXPERIENCE
    Software Developer at TechCorp (2019-2024)
    - Developed web applications using Python and JavaScript
    - Worked with databases and APIs
    - Collaborated with team members on agile projects
    - Maintained code quality and performed code reviews
    
    Senior Developer Intern at StartupXYZ (2018-2019)
    - Built responsive web interfaces using React
    - Integrated third-party APIs and services
    - Participated in daily standups and sprint planning
    
    SKILLS
    Python, JavaScript, React, SQL, Git, Docker, AWS, REST APIs
    
    EDUCATION
    BS Computer Science, University XYZ (2019)
    GPA: 3.7/4.0
    ".

(** [get_sample_job_description()] *)
Definition get_sample_job_description : str := py "
    Senior Python Developer position at InnovaTech
    
    We are looking for an experienced Python developer with expertise in Django, 
    REST APIs, database optimization, and cloud technologies. The ideal candidate 
    should have 3+ years of experience, strong problem-solving skills, and 
    experience with AWS or Azure.
    
    Requirements:
    - 3+ years of Python development experience
    - Strong knowledge of Django framework
    - Experience with REST API development
    - Database design and optimization skills
    - Cloud platform experience (AWS/Azure)
    - Git version control
    - Agile development methodology
    - Strong communication skills
    ".

(** ** The request handler of the web form *)

(** The six fields the form displays: the new summary, the four analyses
    and the full report as text. *)
Definition outputs := (str * str * str * str * str * str)%type.

Definition CROSS_MARK : char := 0x274C.

Section App.

Variable generate_content : str -> nat -> prompt -> outcome.
Variable now : str.

(** [genai.configure(api_key=...)]: the exception it raises on this key,
    if it raises. *)
Variable configure : str -> option exception.

(** [_format_results]: the presentation of a report, which the design
    document leaves to the form; it may raise on a value it cannot join
    or serialise. *)
Variable _format_results : dict -> result outputs.

(** [_create_error_output] *)
Definition _create_error_output (error_message : str) : outputs :=
  (error_message, [], [], [], [], []).

(** [_get_content]: [file] is what reading the upload gives, when there
    is one. *)
Definition _get_content (file : option outcome) (text : option str)
    (sample : str) : str :=
  let from_text :=
    match text with
    | Some t => if truthy t && truthy (strip t) then strip t else sample
    | None => sample
    end in
  match file with
  | Some (Returns content) => content
  | Some (Raises _) => from_text
  | None => from_text
  end.

Definition missing_key_message : str :=
  [CROSS_MARK] ++ py " Please provide a valid Gemini API key".
Definition invalid_key_message (e : exception) : str :=
  [CROSS_MARK] ++ py " Invalid API key: " ++ exc_str e.
Definition no_resume_message : str :=
  [CROSS_MARK] ++ py " No resume content provided".
Definition optimization_error_message (e : exception) : str :=
  [CROSS_MARK] ++ py " Error during optimization: " ++ exc_str e.

(** [GradioResumeApp.process_resume] *)
Definition process_resume (resume_file : option outcome)
    (resume_text : option str) (job_file : option outcome)
    (job_text : option str) (api_key : option str) : M outputs :=
  fun w =>
    if negb (truthy_opt api_key)
    then (Ok (_create_error_output missing_key_message), w)
    else
      let key := match api_key with Some k => strip k | None => [] end in
      if str_eqb key []
      then (Ok (_create_error_output missing_key_message), w)
      else
        match configure key with
        | Some e => (Ok (_create_error_output (invalid_key_message e)), w)
        | None =>
            let w1 := {| credential := key; calls := calls w |} in
            let resume_content :=
              _get_content resume_file resume_text get_sample_resume in
            if negb (truthy resume_content)
            then (Ok (_create_error_output no_resume_message), w1)
            else
              let job_content :=
                _get_content job_file job_text get_sample_job_description in
              match optimize_resume generate_content now resume_content
                      (Some job_content) w1 with
              | (Ok results, w2) =>
                  match _format_results results with
                  | Ok shown => (Ok shown, w2)
                  | Raise e =>
                      (Ok (_create_error_output
                             (optimization_error_message e)), w2)
                  end
              | (Raise e, w2) =>
                  (Ok (_create_error_output (optimization_error_message e)),
                   w2)
              end
        end.

End App.

(** The scenario of the design document: a skills header, one line of
    skills, and a final line feed. *)
Definition skills_scenario : str :=
  py "SKILLS" ++ [NL] ++ py "Python, Go, Rust" ++ [NL].

(** ** The command line *)

Module Cli.

Section Main.

Variable generate_content : str -> nat -> prompt -> outcome.
Variable now : str.

(** [open(file_path, 'r', encoding='utf-8')] and [file.read()]: the text of
    the file, or the exception raised. *)
Variable open_read : str -> outcome.

(** [read_file] *)
Definition read_file (file_path : str) : str :=
  match open_read file_path with
  | Returns content => content
  | Raises _ => []
  end.

(** [main] of [resume_agent.py]: [typed_resume] and [typed_job] are the two
    lines read by [input].  What is printed, and the copy of the report
    written to a file, are left out; the value returned is the report. *)
Definition main (typed_resume typed_job : str) : M dict :=
  let resume_file := strip typed_resume in
  let resume_text :=
    if truthy resume_file && negb (str_eqb resume_file [])
    then
      let resume_text := read_file resume_file in
      if negb (truthy resume_text) then get_sample_resume else resume_text
    else get_sample_resume in
  let job_file := strip typed_job in
  let job_description :=
    if truthy job_file && negb (str_eqb job_file [])
    then
      let job_description := read_file job_file in
      if negb (truthy job_description)
      then get_sample_job_description else job_description
    else get_sample_job_description in
  optimize_resume generate_content now resume_text (Some job_description).

End Main.

End Cli.

(** ** The presentation of a report *)

Definition and_then {A B} (r : result A) (k : A -> result B) : result B :=
  match r with
  | Ok a => k a
  | Raise e => Raise e
  end.

Notation "x <-- r ;; k" := (and_then r (fun x => k))
  (at level 61, r at next level, right associativity).

(** [sep.join(strings)] *)
Fixpoint intercalate (sep : str) (ss : list str) : str :=
  match ss with
  | [] => []
  | s :: rest =>
      match rest with
      | [] => s
      | _ :: _ => s ++ sep ++ intercalate sep rest
      end
  end.

(** The strings of a list of values, when all of them are strings. *)
Fixpoint strings (l : list pyval) : option (list str) :=
  match l with
  | [] => Some []
  | PStr s :: rest =>
      match strings rest with
      | Some ss => Some (s :: ss)
      | None => None
      end
  | _ :: _ => None
  end.

(** [d.get(key, default)] *)
Definition get (key : str) (default : pyval) (d : dict) : pyval :=
  match dict_get key d with
  | Some v => v
  | None => default
  end.

(** [str(n)] for an integer. *)
Definition decimal (z : Z) : str :=
  py (DecimalString.NilZero.string_of_int (Z.to_int z)).

Definition BULLET : char := 0x2022.

Section Presentation.

(** What the interpreter gives and the model keeps open: [str(v)] for a
    floating-point number, a list or a dictionary; the truth value of the
    floating-point number of a literal; the exception raised by [v[:n]] on
    a value that is neither a list nor a string (its class and text depend
    on the version of the interpreter for a dictionary); the exception
    raised by [join] on a list with an item that is not a string; and
    [json.dumps(results, indent=2, default=str)]. *)
Variable repr_of : pyval -> str.
Variable float_truth : str -> bool.
Variable subscript_error : pyval -> exception.
Variable join_error : list pyval -> exception.
Variable json_dumps : dict -> str.

(** [str(v)], as an f-string formats a value. *)
Definition str_of (v : pyval) : str :=
  match v with
  | PStr s => s
  | PInt z => decimal z
  | PBool true => py "True"
  | PBool false => py "False"
  | PNone => py "None"
  | _ => repr_of v
  end.

(** The truth value of [v]. *)
Definition truth (v : pyval) : bool :=
  match v with
  | PNone => false
  | PBool b => b
  | PInt z => negb (z =? 0)%Z
  | PFloat literal => float_truth literal
  | PStr s => truthy s
  | PList l => match l with [] => false | _ :: _ => true end
  | PDict d => match d with [] => false | _ :: _ => true end
  end.

(** The items of [v[:n]]: the first items of a list, the first characters
    of a string. *)
Definition slice (n : nat) (v : pyval) : result (list pyval) :=
  match v with
  | PList l => Ok (firstn n l)
  | PStr s => Ok (map (fun c => PStr [c]) (firstn n s))
  | _ => Raise (subscript_error v)
  end.

(** [sep.join(items)] *)
Definition join (sep : str) (items : list pyval) : result str :=
  match strings items with
  | Some ss => Ok (intercalate sep ss)
  | None => Raise (join_error items)
  end.

(** The lines [for x in items: text += f"• {x}\n"] adds. *)
Definition bullets (items : list pyval) : str :=
  flat_map (fun x => [BULLET] ++ py " " ++ str_of x ++ [NL]) items.

(** One iteration of the loop on the ranked experiences. *)
Definition experience_entry (i : nat) (exp : pyval) : result str :=
  match exp with
  | PDict d =>
      let score := get (py "relevance_score") (PStr (py "N/A")) d in
      let points := get (py "matching_points") (PList []) d in
      first_points <-- slice 3 points ;;
      joined <-- join (py ", ") first_points ;;
      Ok (py "**Experience " ++ decimal (Z.of_nat i) ++ py ":** Score "
          ++ str_of score ++ py "/10" ++ [NL]
          ++ py "Key matches: " ++ joined ++ [NL; NL])
  | _ => Ok []
  end.

(** [for i, exp in enumerate(exps, i)] *)
Fixpoint experience_entries (i : nat) (exps : list pyval) : result str :=
  match exps with
  | [] => Ok []
  | exp :: rest =>
      entry <-- experience_entry i exp ;;
      entries <-- experience_entries (S i) rest ;;
      Ok (entry ++ entries)
  end.

(** The experience analysis of [_format_results]. *)
Definition experience_analysis (results : dict) : result str :=
  match dict_get (py "experience_matching") results with
  | None => Ok []
  | Some (PDict exp_data) =>
      match dict_get (py "ranked_experiences") exp_data with
      | Some ranked =>
          exps <-- slice 3 ranked ;;
          entries <-- experience_entries 1 exps ;;
          Ok ([0x1F4CA] ++ py " **Experience Relevance Analysis:**"
              ++ [NL; NL] ++ entries)
      | None => Ok (py "Experience analysis completed")
      end
  | Some _ => Ok (py "Experience analysis completed")
  end.

(** The keyword analysis of [_format_results]. *)
Definition keyword_analysis (results : dict) : result str :=
  match dict_get (py "keyword_optimization") results with
  | None => Ok []
  | Some (PDict kw_data) =>
      let ats_score := get (py "ats_score") (PStr (py "N/A")) kw_data in
      let missing_kw := get (py "missing_keywords") (PList []) kw_data in
      let score_line :=
        [0x1F3AF] ++ py " **ATS Optimization Score:** " ++ str_of ats_score
        ++ py "/100" ++ [NL; NL] in
      missing <--
        (if truth missing_kw
         then
           first_keywords <-- slice 10 missing_kw ;;
           joined <-- join (py ", ") first_keywords ;;
           Ok (py "**Missing Keywords:** " ++ joined ++ [NL; NL])
         else Ok []) ;;
      let recommendations := get (py "recommendations") (PList []) kw_data in
      recommended <--
        (if truth recommendations
         then
           first_recs <-- slice 3 recommendations ;;
           Ok (py "**Recommendations:**" ++ [NL] ++ bullets first_recs)
         else Ok []) ;;
      Ok (score_line ++ missing ++ recommended)
  | Some _ => Ok (py "Keyword optimization completed")
  end.

(** The design suggestions of [_format_results]. *)
Definition design_suggestions (results : dict) : result str :=
  match dict_get (py "design_suggestions") results with
  | None => Ok []
  | Some (PDict design_data) =>
      let template :=
        get (py "recommended_template") (PStr (py "Standard")) design_data in
      let layout_tips := get (py "layout_suggestions") (PList []) design_data in
      let template_line :=
        [0x1F3A8] ++ py " **Recommended Template:** " ++ str_of template
        ++ [NL; NL] in
      tips <--
        (if truth layout_tips
         then
           first_tips <-- slice 5 layout_tips ;;
           Ok (py "**Layout Suggestions:**" ++ [NL] ++ bullets first_tips)
         else Ok []) ;;
      Ok (template_line ++ tips)
  | Some _ => Ok (py "Design suggestions generated")
  end.

(** One iteration of the loop on the grammar errors. *)
Definition grammar_entry (error : pyval) : str :=
  match error with
  | PDict d =>
      let original := get (py "original") (PStr []) d in
      let corrected := get (py "corrected") (PStr []) d in
      [BULLET] ++ py " '" ++ str_of original ++ py "' " ++ [0x2192]
      ++ py " '" ++ str_of corrected ++ py "'" ++ [NL]
  | _ => []
  end.

(** The editing suggestions of [_format_results]. *)
Definition editing_suggestions (results : dict) : result str :=
  match dict_get (py "editing_suggestions") results with
  | None => Ok []
  | Some (PDict edit_data) =>
      let score := get (py "overall_score") (PStr (py "N/A")) edit_data in
      let feedback := get (py "summary_feedback") (PStr []) edit_data in
      let score_line :=
        [0x270F; 0xFE0F] ++ py " **Overall Quality Score:** " ++ str_of score
        ++ py "/100" ++ [NL; NL] in
      let feedback_line :=
        if truth feedback
        then py "**Feedback:** " ++ str_of feedback ++ [NL; NL]
        else [] in
      let grammar_errors := get (py "grammar_errors") (PList []) edit_data in
      grammar <--
        (if truth grammar_errors
         then
           first_errors <-- slice 3 grammar_errors ;;
           Ok (py "**Grammar Improvements:**" ++ [NL]
               ++ flat_map grammar_entry first_errors)
         else Ok []) ;;
      Ok (score_line ++ feedback_line ++ grammar)
  | Some _ => Ok (py "Editing analysis completed")
  end.

(** [GradioResumeApp._format_results]: the new summary is the value stored
    in the report, whatever its type. *)
Definition format_results (results : dict)
    : result (pyval * str * str * str * str * str) :=
  let new_summary :=
    get (py "new_summary") (PStr (py "No summary generated")) results in
  experience <-- experience_analysis results ;;
  keyword <-- keyword_analysis results ;;
  design <-- design_suggestions results ;;
  editing <-- editing_suggestions results ;;
  Ok (new_summary, experience, keyword, design, editing, json_dumps results).

End Presentation.

(** ** Vocabulary of the statements *)

(** The text [generate_response] hands to a unit. *)
Definition response_text (o : outcome) : str :=
  match o with
  | Returns text => text
  | Raises e => error_prefix ++ exc_str e
  end.

(** The state after a prompt has been sent. *)
Definition sent (p : prompt) (w : world) : world :=
  {| credential := credential w; calls := calls w ++ [p] |}.

(** The text the client returns for a prompt sent in state [w]. *)
Definition answer (generate_content : str -> nat -> prompt -> outcome)
    (w : world) (p : prompt) : str :=
  response_text (generate_content (credential w) (List.length (calls w)) p).

(** The parsed value of a response, or the error object of the unit. *)
Definition decoded (message response : str) : pyval :=
  match json_loads response with
  | Some v => v
  | None => error_object message
  end.

Definition is_mapping (v : pyval) : bool :=
  match v with PDict _ => true | _ => false end.


(** The prompts of a run of [optimize_resume], in the order they are sent:
    with a job text that is not empty the five units run, otherwise the
    summary, design and editing units. *)
Definition schedule (resume_text : str) (job_description : option str)
    : list prompt :=
  let resume_data := parse_resume resume_text in
  match job_description with
  | Some (c :: text) =>
      let j := target_job (c :: text) in
      [ summary_prompt resume_data (Some j);
        experience_prompt resume_data j;
        keyword_prompt resume_data j;
        design_prompt (py "Target") resume_data;
        EditingPrompt resume_text ]
  | _ =>
      [ summary_prompt resume_data None;
        design_prompt (py "General") resume_data;
        EditingPrompt resume_text ]
  end.

(** The text the client returns for prompt [p] sent as call [i] of a run
    begun in state [w]. *)
Definition run_answer (generate_content : str -> nat -> prompt -> outcome)
    (w : world) (i : nat) (p : prompt) : str :=
  response_text
    (generate_content (credential w) (List.length (calls w) + i)%nat p).

(** The report of a run, field by field: the value of each unit's field is
    read from the answer to that unit's own prompt. *)
Definition expected_report
    (generate_content : str -> nat -> prompt -> outcome) (now : str)
    (resume_text : str) (job_description : option str) (w : world) : dict :=
  let resume_data := parse_resume resume_text in
  let a := run_answer generate_content w in
  let head :=
    [ (py "timestamp", PStr now);
      (py "original_resume", PDict (ResumeData_dict resume_data)) ] in
  match job_description with
  | Some (c :: text) =>
      let j := target_job (c :: text) in
      head ++
      [ (py "new_summary", PStr (a 0%nat (summary_prompt resume_data (Some j))));
        (py "experience_matching",
         decoded experience_error (a 1%nat (experience_prompt resume_data j)));
        (py "keyword_optimization",
         decoded keyword_error (a 2%nat (keyword_prompt resume_data j)));
        (py "design_suggestions",
         decoded design_error
           (a 3%nat (design_prompt (py "Target") resume_data)));
        (py "editing_suggestions",
         decoded editing_error (a 4%nat (EditingPrompt resume_text))) ]
  | _ =>
      head ++
      [ (py "new_summary", PStr (a 0%nat (summary_prompt resume_data None)));
        (py "design_suggestions",
         decoded design_error
           (a 1%nat (design_prompt (py "General") resume_data)));
        (py "editing_suggestions",
         decoded editing_error (a 2%nat (EditingPrompt resume_text))) ]
  end.

(** The state after the prompts of a run have been sent. *)
Definition after_run (prompts : list prompt) (w : world) : world :=
  {| credential := credential w; calls := calls w ++ prompts |}.




(** A provider that answers every prompt with an empty object, and one
    whose third call fails. *)
Definition steady_provider : str -> nat -> prompt -> outcome :=
  fun _ _ _ => Returns (py "{}").

Definition flaky_provider : str -> nat -> prompt -> outcome :=
  fun _ n _ =>
    if Nat.eqb n 2
    then Raises {| exc_type := py "TimeoutError"; exc_str := py "timed out" |}
    else Returns (py "{}").

(** A provider that refuses every call, as one does for a credential it
    does not know. *)
Definition refusing_provider : str -> nat -> prompt -> outcome :=
  fun _ _ _ =>
    Raises {| exc_type := py "PermissionDenied";
              exc_str := py "API key not valid" |}.

(** A presentation that shows the summary alone. *)
Definition summary_only (report : dict) : result outputs :=
  match dict_get (py "new_summary") report with
  | Some (PStr text) => Ok (text, [], [], [], [], [])
  | _ => Raise {| exc_type := py "KeyError"; exc_str := py "new_summary" |}
  end.

(** A text with a carriage return before each line feed. *)
Definition CR : char := 13.

Fixpoint to_crlf (s : str) : str :=
  match s with
  | [] => []
  | c :: s' => if c =? NL then CR :: NL :: to_crlf s' else c :: to_crlf s'
  end.


(** Stand-ins for the interpreter in the examples of the presentation:
    values without a fixed text are shown as a question mark, every
    floating-point number counts as true. *)
Definition question_mark (v : pyval) : str := py "?".

Definition not_subscriptable (v : pyval) : exception :=
  {| exc_type := py "TypeError"; exc_str := py "object is not subscriptable" |}.

Definition not_a_string (items : list pyval) : exception :=
  {| exc_type := py "TypeError"; exc_str := py "expected str instance" |}.

Definition keys_only (results : dict) : str :=
  intercalate (py ",") (keys results).

(** A report with one ranked experience and an analysis of keywords. *)
Definition small_report : dict :=
  [ (py "new_summary", PStr (py "Builds compilers."));
    (py "experience_matching",
     PDict [ (py "ranked_experiences",
              PList [ PDict [ (py "relevance_score", PInt 8);
                              (py "matching_points",
                               PList [PStr (py "Go"); PStr (py "Rust")]) ] ]) ]);
    (py "keyword_optimization",
     PDict [ (py "ats_score", PInt 75);
             (py "missing_keywords", PList [PStr (py "Django")]) ]) ].


(** * Lemmas *)

(** The parser and the decoder on small texts. *)

Example scenario_lines :
  split NL skills_scenario = [py "SKILLS"; py "Python, Go, Rust"; []].
Proof. reflexivity. Qed.

Example scenario_skills :
  skills (parse_resume skills_scenario) = [py "Python"; py "Go"; py "Rust"].
Proof. reflexivity. Qed.

Example loads_object :
  json_loads (py "{" ++ [DQUOTE] ++ py "a" ++ [DQUOTE] ++ py ": [1, -2, true, null], "
              ++ [DQUOTE] ++ py "b" ++ [DQUOTE] ++ py ": 1.5e3 }")
  = Some (PDict [ (py "a", PList [PInt 1; PInt (-2); PBool true; PNone]);
                  (py "b", PFloat (py "1.5e3")) ]).
Proof. reflexivity. Qed.

Example loads_escape :
  json_loads ([DQUOTE] ++ py "a\n\u00e9\ud83d\ude00" ++ [DQUOTE])
  = Some (PStr [0x61; 0x0A; 0xE9; 0x1F600]).
Proof. reflexivity. Qed.

Example loads_trailing_comma : json_loads (py "[1, 2,]") = None.
Proof. reflexivity. Qed.

Example loads_leading_zero : json_loads (py "01") = None.
Proof. reflexivity. Qed.

Example loads_extra_data : json_loads (py "{} x") = None.
Proof. reflexivity. Qed.

Example loads_empty : json_loads [] = None.
Proof. reflexivity. Qed.

(** ** The parser *)

Section ParserFacts.





End ParserFacts.

(** ** The client, the units and the orchestrator *)

Section AgentFacts.

Variable generate_content : str -> nat -> prompt -> outcome.
Variable now : str.

Lemma bind_ok {A B} (c : M A) (k : A -> M B) (w w' : world) (a : A) :
  c w = (Ok a, w') -> bind c k w = k a w'.
Proof. intros H. unfold bind. now rewrite H. Qed.
Arguments bind_ok {A B} c k {w w' a} _.

Lemma generate_response_eq (p : prompt) (w : world) :
  generate_response generate_content p w
  = (Ok (answer generate_content w p), sent p w).
Proof.
  unfold generate_response, answer, sent.
  destruct (generate_content _ _ _); reflexivity.
Qed.

Lemma decoded_ret (message response : str) (w : world) :
  match json_loads response with
  | Some v => ret v
  | None => ret (error_object message)
  end w = (Ok (decoded message response), w).
Proof. unfold decoded, ret. destruct (json_loads response); reflexivity. Qed.

Lemma SummaryAgent_execute_eq resume_data job_desc w :
  SummaryAgent_execute generate_content resume_data job_desc w
  = (Ok (answer generate_content w (summary_prompt resume_data job_desc)),
     sent (summary_prompt resume_data job_desc) w).
Proof. apply generate_response_eq. Qed.

Lemma ExperienceMatchingAgent_execute_eq resume_data job_desc w :
  ExperienceMatchingAgent_execute generate_content resume_data job_desc w
  = (Ok (decoded experience_error
           (answer generate_content w
              (experience_prompt resume_data job_desc))),
     sent (experience_prompt resume_data job_desc) w).
Proof.
  unfold ExperienceMatchingAgent_execute.
  rewrite (bind_ok _ _ (generate_response_eq _ _)).
  apply decoded_ret.
Qed.

Lemma KeywordOptimizationAgent_execute_eq resume_data job_desc w :
  KeywordOptimizationAgent_execute generate_content resume_data job_desc w
  = (Ok (decoded keyword_error
           (answer generate_content w (keyword_prompt resume_data job_desc))),
     sent (keyword_prompt resume_data job_desc) w).
Proof.
  unfold KeywordOptimizationAgent_execute.
  rewrite (bind_ok _ _ (generate_response_eq _ _)).
  apply decoded_ret.
Qed.

Lemma DesignAgent_execute_eq resume_data job_desc industry w :
  design_industry job_desc w = (Ok industry, w) ->
  DesignAgent_execute generate_content resume_data job_desc w
  = (Ok (decoded design_error
           (answer generate_content w (design_prompt industry resume_data))),
     sent (design_prompt industry resume_data) w).
Proof.
  intros Hind. unfold DesignAgent_execute.
  rewrite (bind_ok _ _ Hind).
  rewrite (bind_ok _ _ (generate_response_eq _ _)).
  apply decoded_ret.
Qed.

Lemma EditingAgent_execute_eq text w :
  EditingAgent_execute generate_content text w
  = (Ok (decoded editing_error (answer generate_content w (EditingPrompt text))),
     sent (EditingPrompt text) w).
Proof.
  unfold EditingAgent_execute.
  rewrite (bind_ok _ _ (generate_response_eq _ _)).
  apply decoded_ret.
Qed.

(** The title [optimize_resume] gives to a job has a first word. *)
Lemma design_industry_target text w :
  design_industry (Some (target_job text)) w = (Ok (py "Target"), w).
Proof. reflexivity. Qed.

Lemma design_industry_general w :
  design_industry None w = (Ok (py "General"), w).
Proof. reflexivity. Qed.

Lemma sent_sent p q w :
  sent q (sent p w) = after_run [p; q] w.
Proof. unfold sent, after_run; simpl. now rewrite <- app_assoc. Qed.

Lemma sent_after_run p ps w :
  sent p (after_run ps w) = after_run (ps ++ [p]) w.
Proof. unfold sent, after_run; simpl. now rewrite <- app_assoc. Qed.

Lemma answer_sent w p q :
  answer generate_content (sent p w) q = run_answer generate_content w 1 q.
Proof.
  unfold answer, run_answer, sent; simpl. now rewrite length_app.
Qed.

Lemma answer_after_run ps w p :
  answer generate_content (after_run ps w) p
  = run_answer generate_content w (List.length ps) p.
Proof. unfold answer, run_answer, after_run; simpl. now rewrite length_app. Qed.

Lemma answer_start w p :
  answer generate_content w p = run_answer generate_content w 0 p.
Proof. unfold answer, run_answer. now rewrite Nat.add_0_r. Qed.

(** The orchestrator, computed: it returns the report read field by field
    from the answers, after sending the prompts of the schedule. *)
Lemma optimize_resume_eq resume_text job_description w :
  optimize_resume generate_content now resume_text job_description w
  = (Ok (expected_report generate_content now resume_text job_description w),
     after_run (schedule resume_text job_description) w).
Proof.
  unfold optimize_resume.
  destruct job_description as [[|c text]|]; cbn [truthy].
  - rewrite (bind_ok _ _ (SummaryAgent_execute_eq _ _ _)).
    unfold bind at 1, ret at 1.
    rewrite (bind_ok _ _ (DesignAgent_execute_eq _ _ (design_industry_general _))).
    rewrite (bind_ok _ _ (EditingAgent_execute_eq _ _)).
    rewrite sent_sent, sent_after_run, answer_sent, answer_after_run,
      answer_start.
    reflexivity.
  - rewrite (bind_ok _ _ (SummaryAgent_execute_eq _ _ _)).
    unfold bind at 1.
    rewrite (bind_ok _ _ (ExperienceMatchingAgent_execute_eq _ _ _)).
    rewrite (bind_ok _ _ (KeywordOptimizationAgent_execute_eq _ _ _)).
    unfold ret at 1.
    rewrite sent_sent, sent_after_run.
    rewrite (bind_ok _ _
               (DesignAgent_execute_eq _ _ (design_industry_target _ _))).
    rewrite (bind_ok _ _ (EditingAgent_execute_eq _ _)).
    rewrite !sent_after_run, answer_sent, !answer_after_run, answer_start.
    reflexivity.
  - rewrite (bind_ok _ _ (SummaryAgent_execute_eq _ _ _)).
    unfold bind at 1, ret at 1.
    rewrite (bind_ok _ _ (DesignAgent_execute_eq _ _ (design_industry_general _))).
    rewrite (bind_ok _ _ (EditingAgent_execute_eq _ _)).
    rewrite sent_sent, sent_after_run, answer_sent, answer_after_run,
      answer_start.
    reflexivity.
Qed.



End AgentFacts.

(** ** The decoder *)

Section Adequacy.

Local Open Scope nat_scope.

Lemma skip_ws_length (s : str) : List.length (skip_ws s) <= List.length s.
Proof.
  induction s as [|c s IH]; simpl; [lia|].
  destruct (is_ws c); simpl; lia.
Qed.

Lemma span_digits_length (s : str) :
  List.length (snd (span_digits s)) <= List.length s.
Proof.
  induction s as [|c s IH]; simpl; [lia|].
  destruct (is_digit c); simpl; [|lia].
  destruct (span_digits s) as [ds rest]; simpl in *; lia.
Qed.

Lemma strip_prefix_length (p s rest : str) :
  strip_prefix p s = Some rest -> List.length rest + List.length p = List.length s.
Proof.
  revert s; induction p as [|x p IH]; intros s H; simpl in *.
  - injection H as <-. lia.
  - destruct s as [|y s]; [discriminate|].
    destruct (N.eqb x y); [|discriminate].
    apply IH in H. simpl. lia.
Qed.

Ltac case_if H :=
  match type of H with
  | context [if ?b then _ else _] => destruct b
  end.

Lemma scanstring_length (n : nat) :
  forall s acc x rest,
    List.length s <= n ->
    scanstring s acc = Some (x, rest) -> List.length rest < List.length s.
Proof.
  induction n as [|n IH]; intros s acc x rest Hn H.
  - destruct s; [discriminate|simpl in Hn; lia].
  - destruct s as [|c s1]; [discriminate|].
    cbn [scanstring] in H. simpl in Hn.
    case_if H.
    { injection H as _ <-. simpl. lia. }
    case_if H.
    + destruct s1 as [|e s2]; [discriminate|].
      case_if H.
      * destruct s2 as [|a [|b [|c4 [|d s6]]]]; try discriminate.
        destruct (hex4 a b c4 d) as [uni|]; [|discriminate].
        assert (Hs6 : forall acc', scanstring s6 acc' = Some (x, rest) ->
                        List.length rest
                        < List.length (c :: e :: a :: b :: c4 :: d :: s6)).
        { intros acc' H'. apply IH in H'; simpl in *; lia. }
        case_if H; [|eauto].
        destruct s6 as [|bs [|u [|a' [|b' [|c' [|d' s12]]]]]]; eauto.
        case_if H; [|eauto].
        destruct (hex4 a' b' c' d') as [uni2|]; [|discriminate].
        case_if H; [|eauto].
        apply IH in H; simpl in *; lia.
      * destruct (escape e); [|discriminate].
        apply IH in H; simpl in *; lia.
    + case_if H; [discriminate|].
      apply IH in H; simpl in *; lia.
Qed.

Lemma literal_length (name : str) (v0 v : pyval) (s rest : str) :
  name <> [] ->
  literal name v0 s = Some (v, rest) -> List.length rest < List.length s.
Proof.
  intros Hname H. unfold literal in H.
  destruct (strip_prefix name s) as [r|] eqn:Hp; [|discriminate].
  injection H as _ <-. apply strip_prefix_length in Hp.
  destruct name; [contradiction|]. simpl in Hp. lia.
Qed.

Lemma int_part_length (s ip rest : str) :
  int_part s = Some (ip, rest) -> List.length rest < List.length s.
Proof.
  unfold int_part. destruct s as [|c s']; [discriminate|].
  intros H. case_if H.
  - injection H as _ <-. simpl. lia.
  - case_if H; [|discriminate].
    pose proof (span_digits_length s') as Hd.
    destruct (span_digits s') as [ds r]. injection H as _ <-.
    simpl in *. lia.
Qed.

Lemma frac_part_length (s : str) :
  List.length (snd (frac_part s)) <= List.length s.
Proof.
  unfold frac_part. destruct s as [|c s']; [simpl; lia|].
  destruct (N.eqb c _); [|simpl; lia].
  pose proof (span_digits_length s') as Hd.
  destruct (span_digits s') as [[|d ds] r]; simpl in *; lia.
Qed.

Lemma exp_part_length (s : str) :
  List.length (snd (exp_part s)) <= List.length s.
Proof.
  unfold exp_part. destruct s as [|c s']; [simpl; lia|].
  destruct (_ || _); [|simpl; lia].
  destruct s' as [|g t].
  - simpl. lia.
  - destruct (_ || _).
    + pose proof (span_digits_length t) as Hd.
      destruct (span_digits t) as [[|d ds] r]; simpl in *; lia.
    + pose proof (span_digits_length (g :: t)) as Hd.
      destruct (span_digits (g :: t)) as [[|d ds] r]; simpl in *; lia.
Qed.

Lemma match_number_length (s : str) (v : pyval) (rest : str) :
  match_number s = Some (v, rest) -> List.length rest < List.length s.
Proof.
  unfold match_number. intros H.
  set (signed := match s with
                 | c :: s' => if N.eqb c (chr "-") then ([c], s') else ([], s)
                 | [] => ([], s)
                 end) in H.
  assert (Hsigned : List.length (snd signed) <= List.length s).
  { subst signed. destruct s as [|c s']; [simpl; lia|].
    destruct (N.eqb c _); simpl; lia. }
  destruct signed as [minus s1]. simpl in Hsigned.
  destruct (int_part s1) as [[integer s2]|] eqn:Hint; [|discriminate].
  apply int_part_length in Hint.
  pose proof (frac_part_length s2) as Hfrac.
  destruct (frac_part s2) as [frac s3]. simpl in Hfrac.
  pose proof (exp_part_length s3) as Hexp.
  destruct (exp_part s3) as [exp s4]. simpl in Hexp.
  assert (rest = s4) as ->
    by (destruct frac, exp; injection H as _ <-; reflexivity).
  lia.
Qed.

Lemma scan_atom_length (s : str) (v : pyval) (rest : str) :
  scan_atom s = Some (v, rest) -> List.length rest < List.length s.
Proof.
  unfold scan_atom. intros H.
  repeat match type of H with
         | match literal ?n ?v0 s with Some _ => _ | None => _ end = _ =>
             destruct (literal n v0 s) as [[v1 r1]|] eqn:?
         | match match_number s with Some _ => _ | None => _ end = _ =>
             destruct (match_number s) as [[v1 r1]|] eqn:?
         end;
    try (injection H as <- <-);
    try (eapply literal_length; [|eassumption]; discriminate);
    try (eapply match_number_length; eassumption).
Qed.


Lemma scanstring_shorter (s acc x rest : str) :
  scanstring s acc = Some (x, rest) -> List.length rest < List.length s.
Proof. apply (@scanstring_length (List.length s)). lia. Qed.

(** A scan leaves less text than it was given. *)
Lemma scan_progress (fuel : nat) :
  (forall s v rest,
      scan_once fuel s = Scanned v rest -> List.length rest < List.length s)
  /\ (forall s acc v rest,
        members fuel s acc = Scanned v rest ->
        List.length rest < List.length s)
  /\ (forall s acc v rest,
        elements fuel s acc = Scanned v rest ->
        List.length rest < List.length s).
Proof.
  induction fuel as [|fuel [IHv [IHm IHe]]].
  - repeat split; intros; discriminate.
  - repeat split.
    + intros s v rest H. cbn [scan_once] in H.
      destruct s as [|c s1]; [discriminate|].
      case_if H.
      { destruct (scanstring s1 []) as [[x r]|] eqn:Hs; [|discriminate].
        injection H as _ <-. apply scanstring_shorter in Hs. simpl. lia. }
      case_if H.
      { pose proof (skip_ws_length s1) as Hw.
        destruct (skip_ws s1) as [|d s2]; [discriminate|].
        case_if H; [injection H as _ <-; simpl in *; lia|].
        case_if H; [|discriminate].
        apply IHm in H. simpl in *. lia. }
      case_if H.
      { pose proof (skip_ws_length s1) as Hw.
        destruct (skip_ws s1) as [|d s2]; [discriminate|].
        case_if H; [injection H as _ <-; simpl in *; lia|].
        apply IHe in H. simpl in *. lia. }
      destruct (scan_atom (c :: s1)) as [[v1 r1]|] eqn:Ha; [|discriminate].
      injection H as _ <-. now apply scan_atom_length in Ha.
    + intros s acc v rest H. cbn [members] in H.
      destruct (scanstring s []) as [[key s1]|] eqn:Hs; [|discriminate].
      apply scanstring_shorter in Hs.
      pose proof (skip_ws_length s1) as Hw1.
      destruct (skip_ws s1) as [|c s2]; [discriminate|].
      case_if H; [|discriminate].
      pose proof (skip_ws_length s2) as Hw2.
      destruct (scan_once fuel (skip_ws s2)) as [v1 s3| |] eqn:Hv;
        try discriminate.
      apply IHv in Hv.
      pose proof (skip_ws_length s3) as Hw3.
      destruct (skip_ws s3) as [|d s4]; [discriminate|].
      case_if H; [injection H as _ <-; simpl in *; lia|].
      case_if H; [|discriminate].
      pose proof (skip_ws_length s4) as Hw4.
      destruct (skip_ws s4) as [|q s5]; [discriminate|].
      case_if H; [|discriminate].
      apply IHm in H. simpl in *. lia.
    + intros s acc v rest H. cbn [elements] in H.
      destruct (scan_once fuel s) as [v1 s1| |] eqn:Hv; try discriminate.
      apply IHv in Hv.
      pose proof (skip_ws_length s1) as Hw1.
      destruct (skip_ws s1) as [|d s2]; [discriminate|].
      case_if H; [injection H as _ <-; simpl in *; lia|].
      case_if H; [|discriminate].
      pose proof (skip_ws_length s2) as Hw2.
      apply IHe in H. simpl in *. lia.
Qed.

(** The bound on the recursion is never reached. *)
Lemma scan_answers (fuel : nat) :
  (forall s, 2 * List.length s + 1 <= fuel -> scan_once fuel s <> Exhausted)
  /\ (forall s acc,
        2 * List.length s + 2 <= fuel -> members fuel s acc <> Exhausted)
  /\ (forall s acc,
        2 * List.length s + 2 <= fuel -> elements fuel s acc <> Exhausted).
Proof.
  induction fuel as [|fuel [IHv [IHm IHe]]].
  - repeat split; intros; lia.
  - repeat split.
    + intros s Hfuel H. cbn [scan_once] in H.
      destruct s as [|c s1]; [discriminate|].
      case_if H.
      { destruct (scanstring s1 []) as [[x r]|]; discriminate. }
      case_if H.
      { pose proof (skip_ws_length s1) as Hw.
        destruct (skip_ws s1) as [|d s2]; [discriminate|].
        case_if H; [discriminate|].
        case_if H; [|discriminate].
        apply IHm in H; [exact H|]. simpl in *. lia. }
      case_if H.
      { pose proof (skip_ws_length s1) as Hw.
        destruct (skip_ws s1) as [|d s2]; [discriminate|].
        case_if H; [discriminate|].
        apply IHe in H; [exact H|]. simpl in *. lia. }
      destruct (scan_atom (c :: s1)) as [[v1 r1]|]; discriminate.
    + intros s acc Hfuel H. cbn [members] in H.
      destruct (scanstring s []) as [[key s1]|] eqn:Hs; [|discriminate].
      apply scanstring_shorter in Hs.
      pose proof (skip_ws_length s1) as Hw1.
      destruct (skip_ws s1) as [|c s2]; [discriminate|].
      case_if H; [|discriminate].
      pose proof (skip_ws_length s2) as Hw2.
      destruct (scan_once fuel (skip_ws s2)) as [v1 s3| |] eqn:Hv.
      * apply (proj1 (scan_progress fuel)) in Hv.
        pose proof (skip_ws_length s3) as Hw3.
        destruct (skip_ws s3) as [|d s4]; [discriminate|].
        case_if H; [discriminate|].
        case_if H; [|discriminate].
        pose proof (skip_ws_length s4) as Hw4.
        destruct (skip_ws s4) as [|q s5]; [discriminate|].
        case_if H; [|discriminate].
        apply IHm in H; [exact H|]. simpl in *. lia.
      * discriminate.
      * apply IHv in Hv; [exact Hv|]. simpl in *. lia.
    + intros s acc Hfuel H. cbn [elements] in H.
      destruct (scan_once fuel s) as [v1 s1| |] eqn:Hv.
      * apply (proj1 (scan_progress fuel)) in Hv.
        pose proof (skip_ws_length s1) as Hw1.
        destruct (skip_ws s1) as [|d s2]; [discriminate|].
        case_if H; [discriminate|].
        case_if H; [|discriminate].
        pose proof (skip_ws_length s2) as Hw2.
        apply IHe in H; [exact H|]. simpl in *. lia.
      * discriminate.
      * apply IHv in Hv; [exact Hv|]. lia.
Qed.

(** [json_loads] always reaches an answer of the scanner: [None] is a
    decoding error, never the bound. *)
Lemma scan_once_answers (s : str) :
  scan_once (depth_bound s) (skip_ws s) <> Exhausted.
Proof.
  apply (proj1 (scan_answers (depth_bound s))).
  pose proof (skip_ws_length s). unfold depth_bound. lia.
Qed.

End Adequacy.

Section JsonFacts.

(** No JSON value begins with the letter E. *)
Lemma scan_once_capital_E (fuel : nat) (rest : str) :
  scan_once (S fuel) (0x45 :: rest) = Invalid.
Proof. reflexivity. Qed.

(** The text the client returns on a provider failure never decodes. *)
Lemma json_loads_error_prefix (message : str) :
  json_loads (error_prefix ++ message) = None.
Proof.
  unfold json_loads, depth_bound.
  change (error_prefix ++ message)
    with (0x45 :: (List.tl error_prefix ++ message)).
  set (rest := List.tl error_prefix ++ message).
  match goal with
  | |- context [(2 * ?n + 2)%nat] =>
      replace (2 * n + 2)%nat with (S (2 * n + 1)) by lia
  end.
  cbn [startswith skip_ws].
  change (0xFEFF =? 0x45) with false.
  change (is_ws 0x45) with false.
  cbn [andb].
  now rewrite scan_once_capital_E.
Qed.

Lemma decoded_error_prefix (unit_message message : str) :
  decoded unit_message (error_prefix ++ message) = error_object unit_message.
Proof. unfold decoded. now rewrite json_loads_error_prefix. Qed.

End JsonFacts.

(** ** The request handler *)

Section AppFacts.

Variable generate_content : str -> nat -> prompt -> outcome.
Variable now : str.
Variable configure : str -> option exception.
Variable _format_results : dict -> result outputs.

(** A credential that [genai.configure] accepts is not examined further:
    with resume content at hand the units run, whatever the provider
    answers afterwards. *)
Lemma accepted_credential_runs_units resume_file resume_text job_file
    job_text k w :
  strip k <> [] ->
  configure (strip k) = None ->
  _get_content resume_file resume_text get_sample_resume <> [] ->
  calls (snd (process_resume generate_content now configure _format_results
                resume_file resume_text job_file job_text (Some k) w))
  = calls w
    ++ schedule (_get_content resume_file resume_text get_sample_resume)
         (Some (_get_content job_file job_text get_sample_job_description)).
Proof.
  intros Hkey Hconf Hresume.
  unfold process_resume.
  destruct k as [|c k]; [now elim Hkey|].
  cbn [truthy_opt truthy negb].
  destruct (strip (c :: k)) as [|c' k'] eqn:Hstrip; [now elim Hkey|].
  cbn [str_eqb]. rewrite Hconf.
  destruct (_get_content resume_file resume_text get_sample_resume)
    as [|r resume_content]; [now elim Hresume|].
  cbn [truthy negb].
  rewrite optimize_resume_eq.
  destruct (_format_results _); reflexivity.
Qed.

End AppFacts.

(** With every input left empty the samples are used; a key the provider
    does not know is accepted by a configuration that checks nothing, the
    five units run and the summary shown is the error text of the client. *)
Example unknown_key_runs_units :
  let '(shown, w) :=
    process_resume refusing_provider (py "2024-01-01T00:00:00")
      (fun _ => None) summary_only None None None None
      (Some (py "not-a-key")) imported in
  shown = Ok (py "Error generating response: API key not valid",
              [], [], [], [], [])
  /\ List.length (calls w) = 5%nat
  /\ credential w = py "not-a-key".
Proof. vm_compute. repeat split. Qed.

(** * Properties of the design document *)








(** C5. For every prompt, when the call to the provider raises,
    [generate_response] returns: its result is the text "Error generating
    response: " followed by the text of the exception.  That text does not
    decode as JSON, and each unit that decodes its answer returns its error
    object on it. *)
Theorem provider_failure_becomes_text :
  forall (generate_content : str -> nat -> prompt -> outcome)
         (p : prompt) (w : world) (e : exception),
    generate_content (credential w) (List.length (calls w)) p = Raises e ->
    generate_response generate_content p w
      = (Ok (py "Error generating response: " ++ exc_str e), sent p w)
    /\ json_loads (py "Error generating response: " ++ exc_str e) = None
    /\ (forall resume_data job_desc,
          p = experience_prompt resume_data job_desc ->
          ExperienceMatchingAgent_execute generate_content resume_data job_desc w
          = (Ok (error_object experience_error), sent p w))
    /\ (forall resume_data job_desc,
          p = keyword_prompt resume_data job_desc ->
          KeywordOptimizationAgent_execute generate_content resume_data
            job_desc w
          = (Ok (error_object keyword_error), sent p w))
    /\ (forall resume_data job_desc industry,
          design_industry job_desc w = (Ok industry, w) ->
          p = design_prompt industry resume_data ->
          DesignAgent_execute generate_content resume_data job_desc w
          = (Ok (error_object design_error), sent p w))
    /\ (forall text,
          p = EditingPrompt text ->
          EditingAgent_execute generate_content text w
          = (Ok (error_object editing_error), sent p w)).
Proof.
  intros generate_content p w e Hraise.
  assert (Hanswer : answer generate_content w p = error_prefix ++ exc_str e)
    by (unfold answer; now rewrite Hraise).
  split; [rewrite generate_response_eq; now rewrite Hanswer|].
  split; [apply json_loads_error_prefix|].
  repeat split.
  - intros resume_data job_desc ->.
    rewrite ExperienceMatchingAgent_execute_eq, Hanswer.
    now rewrite decoded_error_prefix.
  - intros resume_data job_desc ->.
    rewrite KeywordOptimizationAgent_execute_eq, Hanswer.
    now rewrite decoded_error_prefix.
  - intros resume_data job_desc industry Hind ->.
    rewrite (DesignAgent_execute_eq _ _ _ Hind), Hanswer.
    now rewrite decoded_error_prefix.
  - intros text ->.
    rewrite EditingAgent_execute_eq, Hanswer.
    now rewrite decoded_error_prefix.
Qed.

(** C5, at the third call of the provider that fails there. *)
Lemma provider_failure_becomes_text_witness :
  generate_response flaky_provider (EditingPrompt skills_scenario)
    (after_run (firstn 2 (schedule skills_scenario None)) imported)
  = (Ok (py "Error generating response: timed out"),
     after_run (schedule skills_scenario None) imported)
  /\ json_loads (py "Error generating response: timed out") = None
  /\ EditingAgent_execute flaky_provider skills_scenario
       (after_run (firstn 2 (schedule skills_scenario None)) imported)
     = (Ok (error_object editing_error),
        after_run (schedule skills_scenario None) imported).
Proof.
  destruct (provider_failure_becomes_text flaky_provider
              (EditingPrompt skills_scenario)
              (after_run (firstn 2 (schedule skills_scenario None)) imported)
              (e := {| exc_type := py "TimeoutError";
                       exc_str := py "timed out" |})
              eq_refl)
    as [Hgen [Hloads [_ [_ [_ Hedit]]]]].
  split; [exact Hgen|].
  split; [exact Hloads|].
  exact (Hedit skills_scenario eq_refl).
Defined.

(** C6. [parse_resume] is a total function of the text: for every input,
    the empty text and text without any recognisable section included, it
    gives a [ResumeData], and the [raw_text] of that record is the input,
    unchanged. *)
Theorem parse_resume_total_raw_text :
  forall resume_text : str,
    exists resume_data : ResumeData,
      parse_resume resume_text = resume_data
      /\ raw_text resume_data = resume_text.
Proof.
  intros resume_text. exists (parse_resume resume_text). split; reflexivity.
Qed.



(** C8. Parsing again the [raw_text] of a parsed resume gives the same
    personal_info, summary, experiences, skills and education: the parser
    is a function of the text alone. *)
Theorem parse_resume_idempotent :
  forall x : str,
    let once := parse_resume x in
    let twice := parse_resume (raw_text once) in
    personal_info twice = personal_info once
    /\ summary twice = summary once
    /\ experiences twice = experiences once
    /\ skills twice = skills once
    /\ education twice = education once
    /\ twice = once.
Proof.
  intros x once twice. subst once twice.
  change (raw_text (parse_resume x)) with x.
  repeat split.
Qed.

(** C9. Whatever the text, [parse_resume] gives no experience, no education
    entry and the fixed personal_info with name John Doe and email
    john@email.com.  The summary and the skills do depend on the text. *)
Theorem parse_resume_placeholders :
  (forall resume_text : str,
      experiences (parse_resume resume_text) = []
      /\ education (parse_resume resume_text) = []
      /\ personal_info (parse_resume resume_text) =
           [ (py "name", PStr (py "John Doe"));
             (py "email", PStr (py "john@email.com")) ])
  /\ (exists x y : str,
        summary (parse_resume x) <> summary (parse_resume y)
        /\ skills (parse_resume x) <> skills (parse_resume y)).
Proof.
  split.
  - intros resume_text. repeat split.
  - exists (py "Summary" ++ [NL] ++ py "Engineer" ++ [NL]
            ++ py "Skills" ++ [NL] ++ py "Go"), [].
    split; vm_compute; discriminate.
Qed.



(** * Further properties of the code *)

(** ** Text *)

Section TextFacts.

Lemma split_nonempty (sep : char) (s : str) : split sep s <> [].
Proof.
  destruct s as [|c s]; simpl; [discriminate|].
  destruct (c =? sep); [discriminate|].
  destruct (split sep s); discriminate.
Qed.

(** The pieces of a split do not contain the separator. *)
Lemma split_no_sep (sep : char) (s piece : str) :
  In piece (split sep s) -> ~ In sep piece.
Proof.
  revert piece; induction s as [|c s IH]; intros piece Hin; simpl in Hin.
  - destruct Hin as [<-|[]]. intros [].
  - destruct (c =? sep) eqn:Hc.
    + destruct Hin as [<-|Hin]; [intros []|now apply IH].
    + destruct (split sep s) as [|w ws] eqn:Hs.
      * destruct Hin as [<-|[]]. intros [->|[]]. now rewrite N.eqb_refl in Hc.
      * destruct Hin as [<-|Hin].
        -- intros [->|Hw]; [now rewrite N.eqb_refl in Hc|].
           now apply (IH w); [left|].
        -- apply IH. now right.
Qed.

(** The pieces of a split are made of characters of the text. *)
Lemma split_chars (sep : char) (s piece : str) (c : char) :
  In piece (split sep s) -> In c piece -> In c s.
Proof.
  revert piece; induction s as [|d s IH]; intros piece Hin Hc; simpl in Hin.
  - destruct Hin as [<-|[]]. destruct Hc.
  - destruct (d =? sep).
    + destruct Hin as [<-|Hin]; [destruct Hc|]. right. eapply IH; eauto.
    + destruct (split sep s) as [|w ws] eqn:Hs.
      * destruct Hin as [<-|[]]. destruct Hc as [->|[]]. now left.
      * destruct Hin as [<-|Hin].
        -- destruct Hc as [->|Hc]; [now left|]. right. apply (IH w); [now left|exact Hc].
        -- right. apply (IH piece); [now right|exact Hc].
Qed.

Lemma lstrip_chars (s : str) (c : char) : In c (lstrip s) -> In c s.
Proof.
  induction s as [|d s IH]; simpl; [tauto|].
  destruct (isspace d); [right; auto|tauto].
Qed.

Lemma rstrip_chars (s : str) (c : char) : In c (rstrip s) -> In c s.
Proof.
  unfold rstrip. intros H. apply in_rev in H. apply lstrip_chars in H.
  now apply in_rev.
Qed.

Lemma strip_chars (s : str) (c : char) : In c (strip s) -> In c s.
Proof. unfold strip. intros H. now apply lstrip_chars, rstrip_chars. Qed.

Lemma lstrip_app_nonspace (u : str) (c : char) :
  isspace c = false -> lstrip (u ++ [c]) = lstrip u ++ [c].
Proof.
  intros Hc. induction u as [|d u IH]; simpl.
  - now rewrite Hc.
  - destruct (isspace d); [exact IH|reflexivity].
Qed.

Lemma lstrip_app_space (u : str) (c : char) :
  isspace c = true ->
  lstrip (u ++ [c]) = match lstrip u with [] => [] | r => r ++ [c] end.
Proof.
  intros Hc. induction u as [|d u IH]; simpl.
  - now rewrite Hc.
  - destruct (isspace d); [exact IH|reflexivity].
Qed.

(** [rstrip], read from the left. *)
Lemma rstrip_cons (c : char) (s : str) :
  rstrip (c :: s) =
    match rstrip s with
    | [] => if isspace c then [] else [c]
    | r => c :: r
    end.
Proof.
  unfold rstrip. simpl rev.
  destruct (isspace c) eqn:Hc.
  - rewrite (@lstrip_app_space _ _ Hc).
    destruct (lstrip (rev s)) as [|x r] eqn:Hl; simpl; [reflexivity|].
    rewrite rev_app_distr. simpl.
    destruct (rev r ++ [x]) eqn:He; [now destruct (rev r)|reflexivity].
  - rewrite (@lstrip_app_nonspace _ _ Hc), rev_app_distr. simpl.
    now destruct (rev (lstrip (rev s))).
Qed.

Lemma rstrip_nil : rstrip [] = [].
Proof. reflexivity. Qed.

Lemma lstrip_idempotent (s : str) : lstrip (lstrip s) = lstrip s.
Proof.
  induction s as [|c s IH]; simpl; [reflexivity|].
  destruct (isspace c) eqn:Hc; [exact IH|]. simpl. now rewrite Hc.
Qed.

Lemma rstrip_idempotent (s : str) : rstrip (rstrip s) = rstrip s.
Proof.
  unfold rstrip. rewrite rev_involutive. now rewrite lstrip_idempotent.
Qed.

(** Trimming on the right keeps a text trimmed on the left. *)
Lemma lstrip_rstrip (s : str) : lstrip s = s -> lstrip (rstrip s) = rstrip s.
Proof.
  destruct s as [|c s]; [reflexivity|].
  simpl. destruct (isspace c) eqn:Hc.
  - intros H. exfalso.
    assert (Hlen : (List.length (lstrip s) <= List.length s)%nat).
    { clear. induction s as [|d s IH]; simpl; [lia|].
      destruct (isspace d); simpl; lia. }
    rewrite H in Hlen. simpl in Hlen. lia.
  - intros _. rewrite rstrip_cons.
    destruct (rstrip s); simpl; rewrite ?Hc; simpl; rewrite ?Hc; reflexivity.
Qed.

Lemma strip_idempotent (s : str) : strip (strip s) = strip s.
Proof.
  unfold strip.
  rewrite (@lstrip_rstrip (lstrip s) (lstrip_idempotent s)).
  apply rstrip_idempotent.
Qed.

Lemma strip_nil : strip [] = [].
Proof. reflexivity. Qed.

End TextFacts.

Section LineFacts.

Lemma strip_app_space (s : str) (c : char) :
  isspace c = true -> strip (s ++ [c]) = strip s.
Proof.
  intros Hc. unfold strip. rewrite (@lstrip_app_space _ _ Hc).
  destruct (lstrip s) as [|x r]; [reflexivity|].
  unfold rstrip. rewrite rev_app_distr. simpl rev at 1. simpl app.
  cbn [lstrip]. now rewrite Hc.
Qed.

(** An iteration reads a line through its trimmed text only. *)
Lemma scan_line_strip (st : scan) (a b : str) :
  strip a = strip b -> scan_line st a = scan_line st b.
Proof. intros H. unfold scan_line. now rewrite H. Qed.

Lemma fold_scan_strip (ls ls' : list str) :
  Forall2 (fun a b => strip a = strip b) ls ls' ->
  forall st, fold_left scan_line ls st = fold_left scan_line ls' st.
Proof.
  induction 1 as [|a b ls ls' Hab _ IH]; intros st; simpl; [reflexivity|].
  now rewrite (@scan_line_strip st _ _ Hab).
Qed.

(** The lines of a text with carriage returns before its line feeds are
    the lines of the text, a carriage return added to some. *)
Lemma split_to_crlf (text : str) :
  Forall2 (fun a b => a = b \/ a = b ++ [CR])
    (split NL (to_crlf text)) (split NL text).
Proof.
  induction text as [|c s IH].
  - repeat constructor.
  - cbn [to_crlf]. destruct (c =? NL) eqn:Hc.
    + change (split NL (CR :: NL :: to_crlf s))
        with ([CR] :: split NL (to_crlf s)).
      cbn [split]. rewrite Hc. constructor; [now right|exact IH].
    + cbn [split]. rewrite Hc.
      destruct IH as [|w' w ws' ws Hw Hws]; constructor; auto.
      destruct Hw as [->| ->]; [now left|now right].
Qed.

End LineFacts.


(** ** The parser, line by line *)

Section ParserInvariants.

(** A property of the scanning state that every iteration keeps is kept
    by the loop. *)
Lemma scan_lines_invariant (P : scan -> Prop) (Q : str -> Prop)
    (lines : list str) :
  (forall st l, P st -> Q l -> P (scan_line st l)) ->
  Forall Q lines ->
  forall st, P st -> P (fold_left scan_line lines st).
Proof.
  intros Hstep Hlines. induction Hlines as [|l lines Hl _ IH]; intros st Hst.
  - exact Hst.
  - simpl. apply IH. now apply Hstep.
Qed.

Lemma lines_no_newline (text : str) :
  Forall (fun l => ~ In NL l) (split NL text).
Proof. apply Forall_forall. intros l Hl. now apply split_no_sep in Hl. Qed.

(** The cases of one iteration. *)
Lemma scan_line_cases (st : scan) (raw_line : str) :
  (is_header (strip raw_line) = true
   /\ exists s, scan_line st raw_line = enter s st)
  \/ (is_header (strip raw_line) = false
      /\ strip raw_line <> []
      /\ current_section st = Some Summary
      /\ scan_line st raw_line =
           {| current_section := Some Summary;
              summary_acc := summary_acc st ++ strip raw_line ++ py " ";
              skills_acc := skills_acc st |})
  \/ (is_header (strip raw_line) = false
      /\ strip raw_line <> []
      /\ current_section st = Some Skills
      /\ scan_line st raw_line =
           {| current_section := Some Skills;
              summary_acc := summary_acc st;
              skills_acc := skills_acc st ++ pieces (strip raw_line) |})
  \/ (is_header (strip raw_line) = false
      /\ (strip raw_line = []
          \/ current_section st = None
          \/ current_section st = Some Experience
          \/ current_section st = Some Education)
      /\ scan_line st raw_line = st).
Proof.
  unfold scan_line, is_header.
  destruct (summary_header _); [left; split; eauto|].
  destruct (experience_header _); [left; split; eauto|].
  destruct (skills_header _); [left; split; eauto|].
  destruct (education_header _); [left; split; eauto|].
  right. cbn [orb].
  destruct (strip raw_line) as [|c line] eqn:Hline; cbn [truthy].
  - right; right. auto.
  - destruct (current_section st) as [[ | | | ]|] eqn:Hsec.
    + left. split; [reflexivity|]. split; [discriminate|].
      split; [reflexivity|]. destruct st; simpl in *; now subst.
    + right; right. auto 6.
    + right; left. split; [reflexivity|]. split; [discriminate|].
      split; [reflexivity|]. destruct st; simpl in *; now subst.
    + right; right. auto 6.
    + right; right. auto 6.
Qed.

End ParserInvariants.

Section SummaryFacts.

Lemma scan_line_keeps_summary (st : scan) (raw_line : str) :
  exists more, summary_acc (scan_line st raw_line) = summary_acc st ++ more.
Proof.
  destruct (scan_line_cases st raw_line)
    as [[_ [s ->]]|[[_ [_ [_ ->]]]|[[_ [_ [_ ->]]]|[_ [_ ->]]]]]; simpl;
    try (exists []; now rewrite app_nil_r).
  now exists (strip raw_line ++ py " ").
Qed.

Lemma fold_scan_keeps_summary (lines : list str) :
  forall st, exists more,
    summary_acc (fold_left scan_line lines st) = summary_acc st ++ more.
Proof.
  induction lines as [|l lines IH]; intros st; simpl.
  - exists []. now rewrite app_nil_r.
  - destruct (IH (scan_line st l)) as [more Hmore].
    destruct (scan_line_keeps_summary st l) as [more0 Hmore0].
    exists (more0 ++ more).
    now rewrite Hmore, Hmore0, app_assoc.
Qed.

End SummaryFacts.


(** The sample resume of the application: its summary line begins with
    "Experienced" and is read as the experience header, so the parsed
    summary is empty; the eight skills are read. *)
Example sample_resume_parsed :
  summary (parse_resume get_sample_resume) = []
  /\ skills (parse_resume get_sample_resume)
     = [ py "Python"; py "JavaScript"; py "React"; py "SQL"; py "Git";
         py "Docker"; py "AWS"; py "REST APIs" ].
Proof. split; reflexivity. Qed.

(** X1. Every parsed skill is trimmed: it has no white space at either end,
    and it contains neither a comma nor a line feed. *)
Theorem skills_are_trimmed_pieces :
  forall (resume_text skill : str),
    In skill (skills (parse_resume resume_text)) ->
    strip skill = skill
    /\ ~ In (chr ",") skill
    /\ ~ In NL skill.
Proof.
  intros resume_text.
  change (skills (parse_resume resume_text))
    with (skills_acc (scan_lines (split NL resume_text))).
  unfold scan_lines.
  apply (@scan_lines_invariant
           (fun st => forall skill, In skill (skills_acc st) ->
                        strip skill = skill /\ ~ In (chr ",") skill
                        /\ ~ In NL skill)
           (fun l => ~ In NL l)).
  - intros st l Hst Hl skill.
    destruct (scan_line_cases st l)
      as [[_ [s ->]]|[[_ [_ [_ ->]]]|[[_ [_ [_ ->]]]|[_ [_ ->]]]]];
      simpl; auto.
    intros Hin. apply in_app_or in Hin. destruct Hin as [Hin|Hin]; [auto|].
    unfold pieces in Hin. apply in_map_iff in Hin.
    destruct Hin as [p [<- Hp]].
    split; [apply strip_idempotent|]. split.
    + intros Hc. apply strip_chars in Hc. now apply split_no_sep in Hp.
    + intros Hc. apply strip_chars in Hc.
      apply (@split_chars _ _ _ _ Hp) in Hc. now apply strip_chars in Hc.
  - apply lines_no_newline.
  - intros skill [].
Qed.

(** X1, at a concrete input. *)
Lemma skills_are_trimmed_pieces_witness :
  strip (py "Go") = py "Go" /\ ~ In (chr ",") (py "Go") /\ ~ In NL (py "Go").
Proof.
  apply (skills_are_trimmed_pieces skills_scenario).
  right; left. reflexivity.
Defined.


(** X2. The parsed summary has no white space at either end and holds no
    line feed: the lines of the summary section end up on one line. *)
Theorem summary_is_trimmed_one_line :
  forall resume_text : str,
    strip (summary (parse_resume resume_text)) = summary (parse_resume resume_text)
    /\ ~ In NL (summary (parse_resume resume_text)).
Proof.
  intros resume_text. split; [apply strip_idempotent|].
  change (summary (parse_resume resume_text))
    with (strip (summary_acc (scan_lines (split NL resume_text)))).
  intros Hin. apply strip_chars in Hin. revert Hin.
  unfold scan_lines.
  apply (@scan_lines_invariant
           (fun st => ~ In NL (summary_acc st)) (fun l => ~ In NL l)).
  - intros st l Hst Hl.
    destruct (scan_line_cases st l)
      as [[_ [s ->]]|[[_ [_ [_ ->]]]|[[_ [_ [_ ->]]]|[_ [_ ->]]]]];
      simpl; auto.
    intros Hin. apply in_app_or in Hin. destruct Hin as [Hin|Hin]; [auto|].
    apply in_app_or in Hin. destruct Hin as [Hin|Hin].
    + now apply strip_chars in Hin.
    + destruct Hin as [Heq|[]]. discriminate Heq.
  - apply lines_no_newline.
  - intros [].
Qed.


(** X3. A resume in which no line begins with a section keyword parses to
    an empty summary and no skills: text is stored only after a header. *)
Theorem no_header_no_content :
  forall resume_text : str,
    (forall line, In line (split NL resume_text) ->
                  is_header (strip line) = false) ->
    summary (parse_resume resume_text) = []
    /\ skills (parse_resume resume_text) = [].
Proof.
  intros resume_text Hlines.
  assert (Hstart : scan_lines (split NL resume_text) = start).
  { unfold scan_lines.
    apply (@scan_lines_invariant (fun st => st = start)
             (fun l => is_header (strip l) = false)).
    - intros st l -> Hl.
      destruct (scan_line_cases start l)
        as [[Hh _]|[[_ [_ [Hs _]]]|[[_ [_ [Hs _]]]|[_ [_ ->]]]]];
        [congruence|discriminate Hs|discriminate Hs|reflexivity].
    - now apply Forall_forall.
    - reflexivity. }
  unfold parse_resume; simpl. now rewrite Hstart.
Qed.

(** X3, at a concrete input. *)
Lemma no_header_no_content_witness :
  summary (parse_resume (py "Jane Roe" ++ [NL] ++ py "Rust, Go")) = []
  /\ skills (parse_resume (py "Jane Roe" ++ [NL] ++ py "Rust, Go")) = [].
Proof.
  apply no_header_no_content.
  intros line Hin. vm_compute in Hin.
  destruct Hin as [<-|[<-|[]]]; reflexivity.
Defined.


(** X4. A line that is not a header and is blank, or stands before the
    first header, or under an experience or education header, is not
    stored: the resume without that line has the same summary and the same
    skills. *)
Theorem unstored_lines_leave_no_trace :
  forall (resume_text shorter : str) (before : list str) (line : str)
         (after : list str),
    split NL resume_text = before ++ line :: after ->
    split NL shorter = before ++ after ->
    is_header (strip line) = false ->
    strip line = []
    \/ current_section (scan_lines before) = None
    \/ current_section (scan_lines before) = Some Experience
    \/ current_section (scan_lines before) = Some Education ->
    summary (parse_resume shorter) = summary (parse_resume resume_text)
    /\ skills (parse_resume shorter) = skills (parse_resume resume_text).
Proof.
  intros resume_text shorter before line after Htext Hshorter Hhead Hwhere.
  assert (Hsame : scan_lines (split NL shorter)
                  = scan_lines (split NL resume_text)).
  { rewrite Htext, Hshorter. unfold scan_lines.
    rewrite !fold_left_app. cbn [fold_left]. f_equal.
    destruct (scan_line_cases (fold_left scan_line before start) line)
      as [[Hh _]|[[_ [Hl [Hs _]]]|[[_ [Hl [Hs _]]]|[_ [_ ->]]]]];
      [congruence| | |reflexivity];
      unfold scan_lines in Hwhere;
      destruct Hwhere as [H|[H|[H|H]]]; congruence. }
  unfold parse_resume; simpl. now rewrite Hsame.
Qed.

(** X4, at a concrete input. *)
Lemma unstored_lines_leave_no_trace_witness :
  summary (parse_resume (py "EXPERIENCE" ++ [NL] ++ py "SKILLS" ++ [NL] ++ py "Go"))
  = summary (parse_resume (py "EXPERIENCE" ++ [NL] ++ py "Acme, 2020-2024"
                           ++ [NL] ++ py "SKILLS" ++ [NL] ++ py "Go"))
  /\ skills (parse_resume (py "EXPERIENCE" ++ [NL] ++ py "SKILLS" ++ [NL] ++ py "Go"))
     = skills (parse_resume (py "EXPERIENCE" ++ [NL] ++ py "Acme, 2020-2024"
                             ++ [NL] ++ py "SKILLS" ++ [NL] ++ py "Go")).
Proof.
  apply (unstored_lines_leave_no_trace
           (py "EXPERIENCE" ++ [NL] ++ py "Acme, 2020-2024"
            ++ [NL] ++ py "SKILLS" ++ [NL] ++ py "Go")
           (py "EXPERIENCE" ++ [NL] ++ py "SKILLS" ++ [NL] ++ py "Go")
           [py "EXPERIENCE"] (py "Acme, 2020-2024") [py "SKILLS"; py "Go"]).
  - reflexivity.
  - reflexivity.
  - reflexivity.
  - right; right; left. reflexivity.
Defined.


(** X5. The parser reads each line through its trimmed text: two resumes
    whose lines agree once trimmed have the same summary and skills; so a
    resume with carriage returns before its line feeds parses like the one
    without. *)
Theorem line_margins_are_ignored :
  (forall resume_text other : str,
      Forall2 (fun a b => strip a = strip b)
        (split NL resume_text) (split NL other) ->
      summary (parse_resume other) = summary (parse_resume resume_text)
      /\ skills (parse_resume other) = skills (parse_resume resume_text))
  /\ (forall resume_text : str,
        summary (parse_resume (to_crlf resume_text))
        = summary (parse_resume resume_text)
        /\ skills (parse_resume (to_crlf resume_text))
           = skills (parse_resume resume_text)).
Proof.
  assert (Hgen : forall resume_text other : str,
             Forall2 (fun a b => strip a = strip b)
               (split NL resume_text) (split NL other) ->
             scan_lines (split NL other) = scan_lines (split NL resume_text)).
  { intros resume_text other H. unfold scan_lines.
    symmetry. now apply fold_scan_strip. }
  split.
  - intros resume_text other H. unfold parse_resume; simpl.
    now rewrite (Hgen _ _ H).
  - intros resume_text. unfold parse_resume; simpl.
    rewrite (Hgen resume_text (to_crlf resume_text)); [auto|].
    pose proof (split_to_crlf resume_text) as H.
    induction H as [|a b ls ls' Hab _ IH]; constructor; [|exact IH].
    destruct Hab as [->| ->]; [reflexivity|].
    symmetry. now apply strip_app_space.
Qed.

(** X5, at a concrete input. *)
Lemma line_margins_are_ignored_witness :
  summary (parse_resume (py "Summary" ++ [NL] ++ py "Builds compilers"))
  = summary (parse_resume (py "  Summary " ++ [NL] ++ py "    Builds compilers"))
  /\ skills (parse_resume (py "Summary" ++ [NL] ++ py "Builds compilers"))
     = skills (parse_resume (py "  Summary " ++ [NL] ++ py "    Builds compilers")).
Proof.
  apply (proj1 line_margins_are_ignored).
  repeat constructor.
Defined.


(** X6. A line read in the summary section that is neither blank nor a
    header is added to the summary, trimmed and followed by one space,
    after what was collected before it; the parsed summary is that text,
    trimmed. *)
Theorem summary_lines_joined_by_spaces :
  forall (resume_text : str) (before : list str) (line : str)
         (after : list str),
    split NL resume_text = before ++ line :: after ->
    current_section (scan_lines before) = Some Summary ->
    strip line <> [] ->
    is_header (strip line) = false ->
    exists later,
      summary (parse_resume resume_text) =
        strip (summary_acc (scan_lines before) ++ strip line ++ py " "
               ++ later).
Proof.
  intros resume_text before line after Hlines Hsec Hline Hhead.
  unfold parse_resume; simpl. rewrite Hlines.
  unfold scan_lines in *. rewrite fold_left_app. cbn [fold_left].
  destruct (scan_line_cases (fold_left scan_line before start) line)
    as [[Hh _]|[[_ [_ [_ Hstep]]]|[[_ [_ [Hs _]]]|[_ [[H|[H|[H|H]]] _]]]]];
    try congruence.
  rewrite Hstep.
  match goal with
  | |- context [fold_left scan_line after ?st] =>
      destruct (fold_scan_keeps_summary after st) as [later Hlater]
  end.
  exists later. rewrite Hlater. cbn [summary_acc].
  now rewrite <- !app_assoc.
Qed.

(** X6, at a concrete input. *)
Lemma summary_lines_joined_by_spaces_witness :
  exists later,
    summary (parse_resume (py "Profile" ++ [NL] ++ py " Builds compilers "
                           ++ [NL] ++ py "and tools.")) =
      strip (summary_acc (scan_lines [py "Profile"])
             ++ strip (py " Builds compilers ") ++ py " " ++ later).
Proof.
  apply (summary_lines_joined_by_spaces
           (py "Profile" ++ [NL] ++ py " Builds compilers "
            ++ [NL] ++ py "and tools.")
           [py "Profile"] (py " Builds compilers ") [py "and tools."]).
  - reflexivity.
  - reflexivity.
  - discriminate.
  - reflexivity.
Defined.


(** ** The job description and the prompts *)

Section JobFacts.

Lemma truthy_nonempty (s : str) : truthy s = true <-> s <> [].
Proof. destruct s; simpl; split; congruence. Qed.

End JobFacts.


(** X7. Each requirement [optimize_resume] derives from a job text is not
    empty, has no white space at either end and contains no period. *)
Theorem requirements_are_trimmed_sentences :
  forall (job_description requirement : str),
    In requirement (requirements (target_job job_description)) ->
    requirement <> []
    /\ strip requirement = requirement
    /\ ~ In (chr ".") requirement.
Proof.
  intros job_description requirement Hin.
  cbn [requirements target_job] in Hin.
  apply filter_In in Hin. destruct Hin as [Hin Hne].
  apply in_map_iff in Hin. destruct Hin as [p [<- Hp]].
  split; [now apply truthy_nonempty|].
  split; [apply strip_idempotent|].
  intros Hc. apply strip_chars in Hc. now apply split_no_sep in Hp.
Qed.

(** X7, at a concrete input. *)
Lemma requirements_are_trimmed_sentences_witness :
  py "Go" <> [] /\ strip (py "Go") = py "Go" /\ ~ In (chr ".") (py "Go").
Proof.
  apply (requirements_are_trimmed_sentences (py "Rust. Go . ")).
  right; left. reflexivity.
Defined.






Section OutageFacts.

Variable generate_content : str -> nat -> prompt -> outcome.

Hypothesis outage :
  forall key n p, exists e, generate_content key n p = Raises e.

Lemma outage_answer (w : world) (i : nat) (p : prompt) :
  exists e, run_answer generate_content w i p = error_prefix ++ exc_str e.
Proof.
  unfold run_answer.
  destruct (outage (credential w) (List.length (calls w) + i)%nat p) as [e ->].
  now exists e.
Qed.

Lemma outage_decoded (message : str) (w : world) (i : nat) (p : prompt) :
  decoded message (run_answer generate_content w i p) = error_object message.
Proof.
  destruct (outage_answer w i p) as [e ->]. apply decoded_error_prefix.
Qed.

End OutageFacts.





(** ** The request handler and the command line *)

Section FormFacts.

Variable generate_content : str -> nat -> prompt -> outcome.
Variable now : str.
Variable configure : str -> option exception.
Variable _format_results : dict -> result outputs.

(** With a sample that is not empty, the content is empty only when an
    upload has been read and is empty. *)
Lemma get_content_empty (file : option outcome) (text : option str)
    (sample : str) :
  sample <> [] ->
  (_get_content file text sample = [] <-> file = Some (Returns [])).
Proof.
  intros Hsample.
  assert (Htext : match text with
                  | Some t => if truthy t && truthy (strip t)
                              then strip t else sample
                  | None => sample
                  end <> []).
  { destruct text as [t|]; [|exact Hsample].
    destruct (truthy t); cbn [andb]; [|exact Hsample].
    destruct (truthy (strip t)) eqn:Ht; [|exact Hsample].
    now apply truthy_nonempty. }
  unfold _get_content.
  destruct file as [[content|e]|]; split; intros H;
    try (now elim Htext); try discriminate.
  - now subst.
  - now injection H.
Qed.

Lemma sample_resume_nonempty : get_sample_resume <> [].
Proof. discriminate. Qed.


Lemma accepted_key (k : str) :
  strip k <> [] ->
  truthy_opt (Some k) = true /\ str_eqb (strip k) [] = false.
Proof.
  intros Hk. split.
  - destruct k; [now elim Hk|reflexivity].
  - destruct (strip k); [now elim Hk|reflexivity].
Qed.

End FormFacts.


(** X11. With a key that is accepted, the resume content is empty exactly
    when a resume file was uploaded and read as empty; [process_resume]
    then answers "No resume content provided" without a call to the
    provider, whatever text was pasted. *)
Theorem empty_upload_hides_pasted_resume :
  forall (generate_content : str -> nat -> prompt -> outcome) (now : str)
         (configure : str -> option exception)
         (_format_results : dict -> result outputs)
         (resume_file : option outcome) (resume_text : option str)
         (job_file : option outcome) (job_text : option str)
         (k : str) (w : world),
    strip k <> [] ->
    configure (strip k) = None ->
    (_get_content resume_file resume_text get_sample_resume = []
     <-> resume_file = Some (Returns []))
    /\ (resume_file = Some (Returns []) ->
        process_resume generate_content now configure _format_results
          resume_file resume_text job_file job_text (Some k) w
        = (Ok (no_resume_message, [], [], [], [], []),
           {| credential := strip k; calls := calls w |})).
Proof.
  intros generate_content now configure fmt resume_file resume_text job_file
    job_text k w Hk Hconf.
  split; [apply get_content_empty, sample_resume_nonempty|].
  intros ->. unfold process_resume.
  destruct (@accepted_key k Hk) as [-> ->]. cbn [negb]. rewrite Hconf.
  reflexivity.
Qed.

(** X11, at a concrete input. *)
Lemma empty_upload_hides_pasted_resume_witness :
  process_resume steady_provider (py "2024-01-01T00:00:00") (fun _ => None)
    summary_only (Some (Returns [])) (Some skills_scenario) None None
    (Some (py " key ")) imported
  = (Ok (no_resume_message, [], [], [], [], []),
     {| credential := py "key"; calls := [] |}).
Proof.
  apply (proj2 (empty_upload_hides_pasted_resume steady_provider
                  (py "2024-01-01T00:00:00") (fun _ => None) summary_only
                  (Some (Returns [])) (Some skills_scenario) None None
                  (py " key ") imported
                  ltac:(discriminate) eq_refl)).
  reflexivity.
Defined.








Section CliFacts.

Variable generate_content : str -> nat -> prompt -> outcome.
Variable now : str.
Variable open_read : str -> outcome.


End CliFacts.




(** X15. At the command line a path that is blank, or names a file that
    cannot be read or is empty, gives the same run as an empty answer: the
    sample text is used. *)
Theorem cli_falls_back_to_samples :
  forall (generate_content : str -> nat -> prompt -> outcome) (now : str)
         (open_read : str -> outcome) (typed_resume typed_job : str),
    (strip typed_resume = []
     \/ (exists e, open_read (strip typed_resume) = Raises e)
     \/ open_read (strip typed_resume) = Returns [] ->
     Cli.main generate_content now open_read typed_resume typed_job
     = Cli.main generate_content now open_read [] typed_job)
    /\ (strip typed_job = []
        \/ (exists e, open_read (strip typed_job) = Raises e)
        \/ open_read (strip typed_job) = Returns [] ->
        Cli.main generate_content now open_read typed_resume typed_job
        = Cli.main generate_content now open_read typed_resume []).
Proof.
  intros generate_content now open_read typed_resume typed_job.
  split; intros H; unfold Cli.main, Cli.read_file; cbv zeta;
    rewrite strip_nil; cbn [truthy andb].
  - destruct H as [->|[[e ->]| ->]]; cbn [truthy andb negb];
      try reflexivity;
      destruct (truthy (strip typed_resume) && _); reflexivity.
  - destruct H as [->|[[e ->]| ->]]; cbn [truthy andb negb];
      try reflexivity;
      destruct (truthy (strip typed_job) && _); reflexivity.
Qed.


(** X15, at a path that names no file. *)
Lemma cli_falls_back_to_samples_witness :
  Cli.main steady_provider (py "2024-01-01T00:00:00")
    (fun _ => Raises {| exc_type := py "FileNotFoundError";
                        exc_str := py "No such file or directory" |})
    (py "resume.txt") (py "job.txt")
  = Cli.main steady_provider (py "2024-01-01T00:00:00")
      (fun _ => Raises {| exc_type := py "FileNotFoundError";
                          exc_str := py "No such file or directory" |})
      [] (py "job.txt").
Proof.
  apply (proj1 (cli_falls_back_to_samples steady_provider
                  (py "2024-01-01T00:00:00")
                  (fun _ => Raises {| exc_type := py "FileNotFoundError";
                                      exc_str := py "No such file or directory" |})
                  (py "resume.txt") (py "job.txt"))).
  right; left. eexists. reflexivity.
Defined.


(** ** The presentation *)

Section DictFacts.

Lemma str_eqb_refl (s : str) : str_eqb s s = true.
Proof. induction s as [|c s IH]; simpl; [reflexivity|]. now rewrite N.eqb_refl. Qed.

Lemma str_eqb_eq (a b : str) : str_eqb a b = true <-> a = b.
Proof.
  split; [|intros ->; apply str_eqb_refl].
  revert b; induction a as [|x a IH]; intros [|y b]; simpl; try discriminate;
    [reflexivity|].
  intros H. apply andb_true_iff in H. destruct H as [Hxy Hab].
  apply N.eqb_eq in Hxy. apply IH in Hab. now subst.
Qed.

(** What is stored under a key is what is read under it. *)
Lemma dict_get_set (k : str) (v : pyval) (d : dict) :
  dict_get k (dict_set k v d) = Some v.
Proof.
  induction d as [|[k' v'] d IH]; simpl.
  - now rewrite str_eqb_refl.
  - destruct (str_eqb k k') eqn:Hk; simpl; rewrite ?str_eqb_refl, ?Hk; auto.
Qed.

(** Storing under a key leaves the other keys as they are. *)
Lemma dict_get_set_other (k k' : str) (v : pyval) (d : dict) :
  str_eqb k' k = false ->
  dict_get k' (dict_set k v d) = dict_get k' d.
Proof.
  intros Hk. induction d as [|[k0 v0] d IH]; simpl.
  - now rewrite Hk.
  - destruct (str_eqb k k0) eqn:Hk0; simpl.
    + apply str_eqb_eq in Hk0. subst k0. now rewrite Hk.
    + now rewrite IH.
Qed.

End DictFacts.

Section PresentationFacts.

Variable repr_of : pyval -> str.
Variable float_truth : str -> bool.
Variable subscript_error : pyval -> exception.
Variable join_error : list pyval -> exception.
Variable json_dumps : dict -> str.

Lemma slice_app (n : nat) (l extra : list pyval) :
  (n <= List.length l)%nat ->
  slice subscript_error n (PList (l ++ extra)) = slice subscript_error n (PList l).
Proof.
  intros Hn. unfold slice. rewrite firstn_app.
  replace (n - List.length l)%nat with 0%nat by lia.
  cbn [firstn]. now rewrite app_nil_r.
Qed.

Lemma truth_app (l extra : list pyval) :
  (0 < List.length l)%nat ->
  truth float_truth (PList (l ++ extra)) = truth float_truth (PList l).
Proof. destruct l; simpl; [lia|reflexivity]. Qed.

End PresentationFacts.


(** The presentation of a report with well-formed analyses. *)
Example small_report_shown :
  format_results question_mark (fun _ => true) not_subscriptable not_a_string
    keys_only small_report
  = Ok (PStr (py "Builds compilers."),
        [0x1F4CA] ++ py " **Experience Relevance Analysis:**" ++ [NL; NL]
        ++ py "**Experience 1:** Score 8/10" ++ [NL]
        ++ py "Key matches: Go, Rust" ++ [NL; NL],
        [0x1F3AF] ++ py " **ATS Optimization Score:** 75/100" ++ [NL; NL]
        ++ py "**Missing Keywords:** Django" ++ [NL; NL],
        [], [],
        py "new_summary,experience_matching,keyword_optimization").
Proof. reflexivity. Qed.

(** A list of numbers where keywords are expected makes the formatting
    raise. *)
Example ill_typed_keywords_raise :
  format_results question_mark (fun _ => true) not_subscriptable not_a_string
    keys_only
    [ (py "keyword_optimization",
       PDict [ (py "missing_keywords", PList [PInt 1; PInt 2]) ]) ]
  = Raise (not_a_string [PInt 1; PInt 2]).
Proof. reflexivity. Qed.


(** X16. [_format_results] shows the error object of a unit as a view
    without an error: "Experience analysis completed", a score N/A, the
    template Standard. *)
Theorem error_objects_shown_as_defaults :
  forall (repr_of : pyval -> str) (float_truth : str -> bool)
         (subscript_error : pyval -> exception)
         (join_error : list pyval -> exception)
         (results : dict) (message : str),
    (dict_get (py "experience_matching") results = Some (error_object message) ->
     experience_analysis repr_of subscript_error join_error results
     = Ok (py "Experience analysis completed"))
    /\ (dict_get (py "keyword_optimization") results
          = Some (error_object message) ->
        keyword_analysis repr_of float_truth subscript_error join_error results
        = Ok ([0x1F3AF] ++ py " **ATS Optimization Score:** N/A/100"
              ++ [NL; NL]))
    /\ (dict_get (py "design_suggestions") results
          = Some (error_object message) ->
        design_suggestions repr_of float_truth subscript_error results
        = Ok ([0x1F3A8] ++ py " **Recommended Template:** Standard"
              ++ [NL; NL]))
    /\ (dict_get (py "editing_suggestions") results
          = Some (error_object message) ->
        editing_suggestions repr_of float_truth subscript_error results
        = Ok ([0x270F; 0xFE0F] ++ py " **Overall Quality Score:** N/A/100"
              ++ [NL; NL])).
Proof.
  intros repr_of float_truth subscript_error join_error results message.
  repeat split; intros H.
  - unfold experience_analysis. now rewrite H.
  - unfold keyword_analysis. now rewrite H.
  - unfold design_suggestions. now rewrite H.
  - unfold editing_suggestions. now rewrite H.
Qed.


(** X16, at a report whose keyword field is the error object. *)
Lemma error_objects_shown_as_defaults_witness :
  keyword_analysis question_mark (fun _ => true) not_subscriptable not_a_string
    [ (py "keyword_optimization", error_object keyword_error) ]
  = Ok ([0x1F3AF] ++ py " **ATS Optimization Score:** N/A/100" ++ [NL; NL]).
Proof.
  apply (proj1 (proj2 (error_objects_shown_as_defaults question_mark
                         (fun _ => true) not_subscriptable not_a_string
                         [ (py "keyword_optimization",
                            error_object keyword_error) ]
                         keyword_error))).
  reflexivity.
Defined.


(** X17. A unit field that is not a mapping (a list, a number, a string,
    null) is shown by [_format_results] as the fixed text of its view, and
    the formatting of that view does not raise. *)
Theorem other_values_shown_as_completed :
  forall (repr_of : pyval -> str) (float_truth : str -> bool)
         (subscript_error : pyval -> exception)
         (join_error : list pyval -> exception)
         (results : dict) (v : pyval),
    is_mapping v = false ->
    (dict_get (py "experience_matching") results = Some v ->
     experience_analysis repr_of subscript_error join_error results
     = Ok (py "Experience analysis completed"))
    /\ (dict_get (py "keyword_optimization") results = Some v ->
        keyword_analysis repr_of float_truth subscript_error join_error results
        = Ok (py "Keyword optimization completed"))
    /\ (dict_get (py "design_suggestions") results = Some v ->
        design_suggestions repr_of float_truth subscript_error results
        = Ok (py "Design suggestions generated"))
    /\ (dict_get (py "editing_suggestions") results = Some v ->
        editing_suggestions repr_of float_truth subscript_error results
        = Ok (py "Editing analysis completed")).
Proof.
  intros repr_of float_truth subscript_error join_error results v Hv.
  repeat split; intros H.
  - unfold experience_analysis. rewrite H. destruct v; try reflexivity; discriminate.
  - unfold keyword_analysis. rewrite H. destruct v; try reflexivity; discriminate.
  - unfold design_suggestions. rewrite H. destruct v; try reflexivity; discriminate.
  - unfold editing_suggestions. rewrite H. destruct v; try reflexivity; discriminate.
Qed.


(** X17, at a list of two numbers in design_suggestions. *)
Lemma other_values_shown_as_completed_witness :
  design_suggestions question_mark (fun _ => true) not_subscriptable
    [ (py "design_suggestions", PList [PInt 1; PInt 2]) ]
  = Ok (py "Design suggestions generated").
Proof.
  apply (proj1 (proj2 (proj2
           (@other_values_shown_as_completed question_mark (fun _ => true)
              not_subscriptable not_a_string
              [ (py "design_suggestions", PList [PInt 1; PInt 2]) ]
              (PList [PInt 1; PInt 2]) eq_refl)))).
  reflexivity.
Defined.


(** X18. When every call to the provider raises, the report
    [optimize_resume] returns is shown by [_format_results] without raising:
    the summary is the error text of the client, the views of the job units
    are placeholders or, without a job text, empty, and the design and
    editing views show the template Standard and a score N/A. *)
Theorem outage_shown_as_placeholders :
  forall (generate_content : str -> nat -> prompt -> outcome) (now : str)
         (repr_of : pyval -> str) (float_truth : str -> bool)
         (subscript_error : pyval -> exception)
         (join_error : list pyval -> exception) (json_dumps : dict -> str)
         (resume_text : str) (job_text : option str) (w : world),
    (forall key n p, exists e, generate_content key n p = Raises e) ->
    exists report e,
      optimize_resume generate_content now resume_text job_text w
        = (Ok report, after_run (schedule resume_text job_text) w)
      /\ format_results repr_of float_truth subscript_error join_error
           json_dumps report
         = Ok (PStr (py "Error generating response: " ++ exc_str e),
               (if truthy_opt job_text
                then py "Experience analysis completed" else []),
               (if truthy_opt job_text
                then [0x1F3AF] ++ py " **ATS Optimization Score:** N/A/100"
                     ++ [NL; NL]
                else []),
               [0x1F3A8] ++ py " **Recommended Template:** Standard"
               ++ [NL; NL],
               [0x270F; 0xFE0F] ++ py " **Overall Quality Score:** N/A/100"
               ++ [NL; NL],
               json_dumps report).
Proof.
  intros generate_content now repr_of float_truth subscript_error join_error
    json_dumps resume_text job_text w Hout.
  rewrite optimize_resume_eq.
  destruct job_text as [[|c text]|]; unfold expected_report; cbn [app];
    match goal with
    | |- context [PStr (run_answer generate_content w 0 ?p)] =>
        destruct (@outage_answer _ Hout w 0 p) as [e He]; rewrite He
    end;
    rewrite !(@outage_decoded _ Hout);
    eexists; exists e; (split; [reflexivity|]); reflexivity.
Qed.


(** X18, at the scenario text with a job text and a provider that refuses
    every call. *)
Lemma outage_shown_as_placeholders_witness :
  exists report e,
    optimize_resume refusing_provider (py "2024-01-01T00:00:00")
      skills_scenario (Some (py "Rust developer.")) imported
      = (Ok report,
         after_run (schedule skills_scenario (Some (py "Rust developer.")))
           imported)
    /\ format_results question_mark (fun _ => true) not_subscriptable
         not_a_string keys_only report
       = Ok (PStr (py "Error generating response: " ++ exc_str e),
             (if truthy_opt (Some (py "Rust developer."))
              then py "Experience analysis completed" else []),
             (if truthy_opt (Some (py "Rust developer."))
              then [0x1F3AF] ++ py " **ATS Optimization Score:** N/A/100"
                   ++ [NL; NL]
              else []),
             [0x1F3A8] ++ py " **Recommended Template:** Standard"
             ++ [NL; NL],
             [0x270F; 0xFE0F] ++ py " **Overall Quality Score:** N/A/100"
             ++ [NL; NL],
             keys_only report).
Proof.
  apply outage_shown_as_placeholders.
  intros key n p. eexists. reflexivity.
Defined.


(** X19. The views of [_format_results] read the first items of a list
    only: three ranked experiences, ten missing keywords, three
    recommendations, five layout suggestions, three grammar errors; items
    beyond them do not change the view. *)
Theorem views_show_first_items_only :
  forall (repr_of : pyval -> str) (float_truth : str -> bool)
         (subscript_error : pyval -> exception)
         (join_error : list pyval -> exception)
         (results data : dict) (l extra : list pyval),
    ((3 <= List.length l)%nat ->
     experience_analysis repr_of subscript_error join_error
       (dict_set (py "experience_matching")
          (PDict (dict_set (py "ranked_experiences") (PList (l ++ extra)) data))
          results)
     = experience_analysis repr_of subscript_error join_error
         (dict_set (py "experience_matching")
            (PDict (dict_set (py "ranked_experiences") (PList l) data))
            results))
    /\ ((10 <= List.length l)%nat ->
        keyword_analysis repr_of float_truth subscript_error join_error
          (dict_set (py "keyword_optimization")
             (PDict (dict_set (py "missing_keywords") (PList (l ++ extra)) data))
             results)
        = keyword_analysis repr_of float_truth subscript_error join_error
            (dict_set (py "keyword_optimization")
               (PDict (dict_set (py "missing_keywords") (PList l) data))
               results))
    /\ ((3 <= List.length l)%nat ->
        keyword_analysis repr_of float_truth subscript_error join_error
          (dict_set (py "keyword_optimization")
             (PDict (dict_set (py "recommendations") (PList (l ++ extra)) data))
             results)
        = keyword_analysis repr_of float_truth subscript_error join_error
            (dict_set (py "keyword_optimization")
               (PDict (dict_set (py "recommendations") (PList l) data))
               results))
    /\ ((5 <= List.length l)%nat ->
        design_suggestions repr_of float_truth subscript_error
          (dict_set (py "design_suggestions")
             (PDict (dict_set (py "layout_suggestions") (PList (l ++ extra)) data))
             results)
        = design_suggestions repr_of float_truth subscript_error
            (dict_set (py "design_suggestions")
               (PDict (dict_set (py "layout_suggestions") (PList l) data))
               results))
    /\ ((3 <= List.length l)%nat ->
        editing_suggestions repr_of float_truth subscript_error
          (dict_set (py "editing_suggestions")
             (PDict (dict_set (py "grammar_errors") (PList (l ++ extra)) data))
             results)
        = editing_suggestions repr_of float_truth subscript_error
            (dict_set (py "editing_suggestions")
               (PDict (dict_set (py "grammar_errors") (PList l) data))
               results)).
Proof.
  intros repr_of float_truth subscript_error join_error results data l extra.
  repeat split; intros Hlen.
  - unfold experience_analysis. rewrite !dict_get_set.
    now rewrite (@slice_app subscript_error 3 l extra Hlen).
  - unfold keyword_analysis, get. rewrite !dict_get_set.
    rewrite !(@dict_get_set_other (py "missing_keywords")) by reflexivity.
    rewrite (@slice_app subscript_error 10 l extra Hlen).
    now rewrite (@truth_app float_truth l extra) by lia.
  - unfold keyword_analysis, get. rewrite !dict_get_set.
    rewrite !(@dict_get_set_other (py "recommendations")) by reflexivity.
    rewrite (@slice_app subscript_error 3 l extra Hlen).
    now rewrite (@truth_app float_truth l extra) by lia.
  - unfold design_suggestions, get. rewrite !dict_get_set.
    rewrite !(@dict_get_set_other (py "layout_suggestions")) by reflexivity.
    rewrite (@slice_app subscript_error 5 l extra Hlen).
    now rewrite (@truth_app float_truth l extra) by lia.
  - unfold editing_suggestions, get. rewrite !dict_get_set.
    rewrite !(@dict_get_set_other (py "grammar_errors")) by reflexivity.
    rewrite (@slice_app subscript_error 3 l extra Hlen).
    now rewrite (@truth_app float_truth l extra) by lia.
Qed.


(** X19, at four ranked experiences: the fourth is not shown. *)
Lemma views_show_first_items_only_witness :
  experience_analysis question_mark not_subscriptable not_a_string
    (dict_set (py "experience_matching")
       (PDict (dict_set (py "ranked_experiences")
                 (PList ([PDict []; PDict []; PDict []] ++ [PDict []])) []))
       [])
  = experience_analysis question_mark not_subscriptable not_a_string
      (dict_set (py "experience_matching")
         (PDict (dict_set (py "ranked_experiences")
                   (PList [PDict []; PDict []; PDict []]) []))
         []).
Proof.
  apply (proj1 (views_show_first_items_only question_mark (fun _ => true)
                  not_subscriptable not_a_string [] []
                  [PDict []; PDict []; PDict []] [PDict []])).
  apply le_n.
Defined.

